(** * M5_IndividualA.py: the aggregation pipeline of the COVID-19 hospital
      and ICU dashboard

    The script reads a table of observations, keeps the rows of a date
    range, and derives from them the summary cards, the daily global
    series with its peaks, the ranking of countries and the regional ICU
    share.  This file embeds that pipeline as functions on lists of rows
    and proves the properties the specification states about it.

    Conventions of the embedding.
    - A data frame is the list of its rows, in positional order.  Where the
      script looks a row up by index label ([idxmax] followed by [.loc]),
      the rows carry their label.
    - A timestamp is a [Z]; [None] in a date column is pandas' [NaT].
    - A metric value is a count, an integer [Z]; [None] is [NaN] (what
      [pd.to_numeric(errors="coerce")] leaves for a blank or non-numeric
      cell).  The regional summary carries the ICU percentage twice:
      [ICU_pct_float64] is the binary64 value that line 449 stores in the
      column, and [ICU_pct] is the exact rational that value rounds.
    - A missing [Country] or [WHO_region] cell is [None].
    - [DataFrame.sort_values] is called with its default [kind]
      ("quicksort"), which pandas documents as not stable.  The pipeline is
      therefore parameterised by the sort; all that is assumed of it is that
      it returns a permutation of its input ordered by the key.  A stable
      instance, [stable_sort_values], is provided. *)

From Stdlib Require Import List ZArith QArith Bool Lia String Ascii.
From Stdlib Require Import Permutation Sorted OrderedTypeEx.
From Stdlib Require Floats.
Import ListNotations.

Local Open Scope Z_scope.

(** ** Data model *)

(** The four metric columns that [load_data] converts with [pd.to_numeric]. *)
Inductive metric_col : Type :=
| Covid_new_hospitalizations_last_7days
| Covid_new_icu_admissions_last_7days
| Covid_new_hospitalizations_last_28days
| Covid_new_icu_admissions_last_28days.

(** One row of the table returned by [load_data]. *)
Record Row : Type := mkRow {
  Date_reported : option Z;
  Country : option string;
  WHO_region : option string;
  hosp_7d : option Z;
  icu_7d : option Z;
  hosp_28d : option Z;
  icu_28d : option Z
}.

Definition DataFrame : Type := list Row.

(** [df[c]] for a metric column [c], row by row. *)
Definition col (c : metric_col) (r : Row) : option Z :=
  match c with
  | Covid_new_hospitalizations_last_7days => hosp_7d r
  | Covid_new_icu_admissions_last_7days => icu_7d r
  | Covid_new_hospitalizations_last_28days => hosp_28d r
  | Covid_new_icu_admissions_last_28days => icu_28d r
  end.

(** ** Series reductions *)

(** The non-missing values of a series, in order. *)
Fixpoint dropna {A : Type} (xs : list (option A)) : list A :=
  match xs with
  | [] => []
  | Some x :: xs' => x :: dropna xs'
  | None :: xs' => dropna xs'
  end.

Fixpoint Zsum (xs : list Z) : Z :=
  match xs with
  | [] => 0
  | x :: xs' => x + Zsum xs'
  end.

(** [Series.sum()]: missing values are skipped; the sum of no value is 0. *)
Definition series_sum (xs : list (option Z)) : Z := Zsum (dropna xs).

(** [Series.min()] and [Series.max()]: missing values are skipped; the
    result is missing when no value is left. *)
Fixpoint Zmax_list (xs : list Z) : option Z :=
  match xs with
  | [] => None
  | x :: xs' =>
      match Zmax_list xs' with
      | None => Some x
      | Some m => Some (Z.max x m)
      end
  end.

Fixpoint Zmin_list (xs : list Z) : option Z :=
  match xs with
  | [] => None
  | x :: xs' =>
      match Zmin_list xs' with
      | None => Some x
      | Some m => Some (Z.min x m)
      end
  end.

Definition series_max (xs : list (option Z)) : option Z := Zmax_list (dropna xs).
Definition series_min (xs : list (option Z)) : option Z := Zmin_list (dropna xs).

(** ** Filter panel *)

Inductive Window : Type := Weekly | Monthly.

(** Lines 95-102: the columns the chosen window selects. *)
Definition hosp_col (window : Window) : metric_col :=
  match window with
  | Weekly => Covid_new_hospitalizations_last_7days
  | Monthly => Covid_new_hospitalizations_last_28days
  end.

Definition icu_col (window : Window) : metric_col :=
  match window with
  | Weekly => Covid_new_icu_admissions_last_7days
  | Monthly => Covid_new_icu_admissions_last_28days
  end.

Definition min_date (df : DataFrame) : option Z := series_min (map Date_reported df).
Definition max_date (df : DataFrame) : option Z := series_max (map Date_reported df).

(** Lines 115-118: a two-element [date_range] gives the bounds, anything
    else falls back to the span of the data.  [Some (s, e)] is the
    two-element tuple. *)
Definition date_bounds (df : DataFrame) (date_range : option (Z * Z))
  : option Z * option Z :=
  match date_range with
  | Some (s, e) => (Some s, Some e)
  | None => (min_date df, max_date df)
  end.

(** Comparison of timestamps as pandas does it: false as soon as one side
    is [NaT]. *)
Definition ts_ge (a b : option Z) : bool :=
  match a, b with
  | Some x, Some y => y <=? x
  | _, _ => false
  end.

Definition ts_le (a b : option Z) : bool :=
  match a, b with
  | Some x, Some y => x <=? y
  | _, _ => false
  end.

(** Lines 121-124. *)
Definition df_global (df : DataFrame) (start_date end_date : option Z)
  : DataFrame :=
  filter (fun r => ts_ge (Date_reported r) start_date
                   && ts_le (Date_reported r) end_date) df.

(** Lines 140-141: the two totals of the cards. *)
Definition total_hosp_hist (dfg : DataFrame) : Z :=
  series_sum (map (col Covid_new_hospitalizations_last_7days) dfg).

Definition total_icu_hist (dfg : DataFrame) : Z :=
  series_sum (map (col Covid_new_icu_admissions_last_7days) dfg).

(** ** groupby

    [df.groupby(by, as_index=False)[cols].sum()] with pandas' defaults
    ([sort=True], [dropna=True]): one output row per distinct non-missing
    key, in ascending key order, holding the sums of the selected columns
    over the rows of that key. *)

Section GroupBy.
Context {K : Type}.
Variables eqb ltb : K -> K -> bool.

Fixpoint insert_key (k : K) (ks : list K) : list K :=
  match ks with
  | [] => [k]
  | k' :: ks' =>
      if eqb k k' then ks
      else if ltb k k' then k :: ks
      else k' :: insert_key k ks'
  end.

(** The group keys: the distinct non-missing values, ascending. *)
Definition group_keys (keys : list (option K)) : list K :=
  fold_right insert_key [] (dropna keys).

Definition key_is (k : K) (o : option K) : bool :=
  match o with
  | Some k' => eqb k' k
  | None => false
  end.

(** The rows of one group, in their order in the frame. *)
Definition get_group (by_ : Row -> option K) (k : K) (df : DataFrame)
  : DataFrame :=
  filter (fun r => key_is k (by_ r)) df.
End GroupBy.

(** [reset_index]: the labels 0, 1, ... of a freshly built frame. *)
Definition reset_index {A : Type} (rows : list A) : list (nat * A) :=
  combine (seq 0 (List.length rows)) rows.

Definition values {A : Type} (df : list (nat * A)) : list A := map snd df.

(** *** The daily global series *)

Record ts_row : Type := mk_ts {
  ts_Date_reported : Z;
  ts_hosp : Z;
  ts_icu : Z
}.

(** [df_global.groupby("Date_reported", as_index=False)[[hosp_col, icu_col]].sum()] *)
Definition groupby_Date_reported_sum (dfg : DataFrame) (hc ic : metric_col)
  : list (nat * ts_row) :=
  reset_index
    (map (fun d =>
            let g := get_group Z.eqb Date_reported d dfg in
            mk_ts d (series_sum (map (col hc) g)) (series_sum (map (col ic) g)))
         (group_keys Z.eqb Z.ltb (map Date_reported dfg))).

(** *** The country ranking *)

Record rank_row : Type := mk_rank {
  rk_Country : string;
  Total_hosp : Z
}.

(** [df_scope.groupby("Country", as_index=False)[...7days].sum().rename(...)] *)
Definition groupby_Country_sum (df_scope : DataFrame) : list rank_row :=
  map (fun c =>
         mk_rank c
           (series_sum (map (col Covid_new_hospitalizations_last_7days)
                            (get_group String.eqb Country c df_scope))))
      (group_keys String.eqb String.ltb (map Country df_scope)).

(** *** The regional summary *)

Record reg_sums : Type := mk_sums {
  g_WHO_region : string;
  g_Total_hosp : Z;
  g_Total_icu : Z
}.

(** A row of the regional summary.  [ICU_pct_float64] is the [ICU_pct]
    column as line 449 computes it, in binary64; [ICU_pct] is the exact
    rational share, which the column rounds. *)
Record reg_row : Type := mk_reg {
  reg_WHO_region : string;
  reg_Total_hosp : Z;
  reg_Total_icu : Z;
  ICU_pct : Q;
  ICU_pct_float64 : PrimFloat.float
}.

(** A count as a binary64 number, rounded to nearest (exact below 2^53). *)
Definition Z2float (z : Z) : PrimFloat.float :=
  FloatOps.SF2Prim
    (SpecFloat.binary_normalize FloatOps.prec FloatOps.emax z 0 false).

(** Lines 432-443. *)
Definition groupby_WHO_region_sum (dfg : DataFrame) : list reg_sums :=
  map (fun g =>
         let rows := get_group String.eqb WHO_region g dfg in
         mk_sums g
           (series_sum (map (col Covid_new_hospitalizations_last_7days) rows))
           (series_sum (map (col Covid_new_icu_admissions_last_7days) rows)))
      (group_keys String.eqb String.ltb (map WHO_region dfg)).

(** Line 449. *)
Definition with_ICU_pct (g : reg_sums) : reg_row :=
  mk_reg (g_WHO_region g) (g_Total_hosp g) (g_Total_icu g)
         ((inject_Z (g_Total_icu g) / inject_Z (g_Total_hosp g)) * 100)%Q
         (PrimFloat.mul
            (PrimFloat.div (Z2float (g_Total_icu g)) (Z2float (g_Total_hosp g)))
            (Z2float 100)).

(** ** Peaks *)

(** [Series.idxmax()]: the label of the first occurrence of the maximum;
    [None] stands for the [ValueError] raised on an empty series. *)
Fixpoint idxmax_from (best : nat * Z) (s : list (nat * Z)) : nat :=
  match s with
  | [] => fst best
  | (i, v) :: s' =>
      if snd best <? v then idxmax_from (i, v) s' else idxmax_from best s'
  end.

Definition idxmax (s : list (nat * Z)) : option nat :=
  match s with
  | [] => None
  | b :: s' => Some (idxmax_from b s')
  end.

(** [df.loc[label]]: the row carrying the label; [None] stands for the
    [KeyError]. *)
Fixpoint loc {A : Type} (df : list (nat * A)) (label : nat) : option A :=
  match df with
  | [] => None
  | (i, a) :: df' => if Nat.eqb i label then Some a else loc df' label
  end.

(** A column of the daily series, with the labels. *)
Definition ts_series (f : ts_row -> Z) (df_ts : list (nat * ts_row))
  : list (nat * Z) :=
  map (fun ir => (fst ir, f (snd ir))) df_ts.

(** [df_ts[c].max()] *)
Definition peak_value (f : ts_row -> Z) (df_ts : list (nat * ts_row))
  : option Z :=
  Zmax_list (map f (values df_ts)).

(** [df_ts.loc[df_ts[c].idxmax(), "Date_reported"]] *)
Definition peak_date (f : ts_row -> Z) (df_ts : list (nat * ts_row))
  : option Z :=
  match idxmax (ts_series f df_ts) with
  | None => None
  | Some label =>
      match loc df_ts label with
      | None => None
      | Some r => Some (ts_Date_reported r)
      end
  end.

(** ** Country tab controls *)

Inductive ViewMode : Type :=
| Top_5_countries_globally
| Top_5_countries_AMR
| Top_5_countries_EUR
| Top_5_countries_AFR
| Top_5_countries_EMR
| Top_5_countries_SEAR
| Top_5_countries_WPR.

(** Lines 373-382. *)
Definition region_map (view_mode : ViewMode) : option string :=
  match view_mode with
  | Top_5_countries_globally => None
  | Top_5_countries_AMR => Some "AMR"%string
  | Top_5_countries_EUR => Some "EUR"%string
  | Top_5_countries_AFR => Some "AFR"%string
  | Top_5_countries_EMR => Some "EMR"%string
  | Top_5_countries_SEAR => Some "SEAR"%string
  | Top_5_countries_WPR => Some "WPR"%string
  end.

Inductive MetricChoice : Type := Hospitalizations | ICU_admissions.

(** Lines 365-370. *)
Definition y_col (window : Window) (metric_choice : MetricChoice)
  : metric_col :=
  match metric_choice with
  | Hospitalizations => hosp_col window
  | ICU_admissions => icu_col window
  end.

(** Lines 384-387. *)
Definition df_scope (dfg : DataFrame) (target_region : option string)
  : DataFrame :=
  match target_region with
  | None => dfg
  | Some reg => filter (fun r => key_is String.eqb reg (WHO_region r)) dfg
  end.

(** [df_scope["Country"].isin(top_countries)] *)
Definition isin (top_countries : list string) (c : option string) : bool :=
  match c with
  | Some name => existsb (String.eqb name) top_countries
  | None => false
  end.

(** ** sort_values

    [DataFrame.sort_values(by, ascending)] orders the rows by one column,
    missing keys last whatever the direction ([na_position="last"]). *)

Definition key_le (ascending : bool) (a b : option Z) : Prop :=
  match a, b with
  | Some x, Some y => if ascending then x <= y else y <= x
  | _, None => True
  | None, Some _ => False
  end.

Definition key_leb (ascending : bool) (a b : option Z) : bool :=
  match a, b with
  | Some x, Some y => if ascending then x <=? y else y <=? x
  | _, None => true
  | None, Some _ => false
  end.

Definition sort_fun : Type :=
  forall A : Type, (A -> option Z) -> bool -> list A -> list A.

(** What is assumed of the sort: it permutes the rows and leaves them
    ordered by the key.  Nothing is assumed about rows of equal key. *)
Record sort_values_spec (sort_values : sort_fun) : Prop := {
  sort_values_perm :
    forall A key ascending (l : list A),
      Permutation l (sort_values A key ascending l);
  sort_values_sorted :
    forall A key ascending (l : list A),
      StronglySorted (fun a b => key_le ascending (key a) (key b))
                     (sort_values A key ascending l)
}.

(** A stable instance: insertion sort, each row placed before the rows
    already sorted whose key is not smaller. *)
Fixpoint insert_sorted {A : Type} (key : A -> option Z) (ascending : bool)
  (a : A) (l : list A) : list A :=
  match l with
  | [] => [a]
  | b :: l' =>
      if key_leb ascending (key a) (key b) then a :: l
      else b :: insert_sorted key ascending a l'
  end.

Definition stable_sort_values : sort_fun :=
  fun A key ascending l => fold_right (insert_sorted key ascending) [] l.

(** ** What one run of the script shows *)

Record Cards : Type := mkCards {
  card_total_hosp : Z;
  card_total_icu : Z;
  peak_hosp : option Z;
  peak_icu : option Z
}.

Record Overview : Type := mkOverview {
  ov_df_ts : list (nat * ts_row);
  hosp_peak_value : option Z;
  hosp_peak_date : Z;
  icu_peak_value : option Z;
  icu_peak_date : Z
}.

Inductive CountryTab : Type :=
| Warning_no_data_for_region
| Warning_no_countries_found
| Country_chart (y : metric_col) (top_countries : list string)
                (df_country_ts : DataFrame).

Record Page : Type := mkPage {
  cards : Cards;
  tab_overview : Overview;
  tab_country : CountryTab;
  tab_corr : list reg_row
}.

(** [Stopped] is the warning of line 127 followed by [st.stop()];
    [Raised] is an exception escaping the script ([idxmax] on an empty
    series). *)
Inductive Outcome : Type :=
| Stopped
| Raised
| Rendered (page : Page).

Section Pipeline.
Variable sort_values : sort_fun.

(** Lines 144-148 (no sort) and 205-210 (sorted by date). *)
Definition df_ts_cards (dfg : DataFrame) (window : Window)
  : list (nat * ts_row) :=
  groupby_Date_reported_sum dfg (hosp_col window) (icu_col window).

Definition df_ts (dfg : DataFrame) (window : Window) : list (nat * ts_row) :=
  sort_values _ (fun ir => Some (ts_Date_reported (snd ir))) true
    (groupby_Date_reported_sum dfg (hosp_col window) (icu_col window)).

(** Lines 394-400. *)
Definition df_rank (dfs : DataFrame) : list rank_row :=
  sort_values _ (fun r => Some (Total_hosp r)) false (groupby_Country_sum dfs).

(** Line 402. *)
Definition top_countries (dfs : DataFrame) : list string :=
  firstn 5 (map rk_Country (df_rank dfs)).

(** Lines 407-410. *)
Definition df_country_ts (dfs : DataFrame) (top : list string) : DataFrame :=
  sort_values _ Date_reported true
    (filter (fun r => isin top (Country r)) dfs).

(** Lines 390-424. *)
Definition country_tab (dfg : DataFrame) (window : Window)
  (view_mode : ViewMode) (metric_choice : MetricChoice) : CountryTab :=
  let dfs := df_scope dfg (region_map view_mode) in
  match dfs with
  | [] => Warning_no_data_for_region
  | _ :: _ =>
      match top_countries dfs with
      | [] => Warning_no_countries_found
      | top =>
          Country_chart (y_col window metric_choice) top
                        (df_country_ts dfs top)
      end
  end.

(** Lines 432-452. *)
Definition df_reg (dfg : DataFrame) : list reg_row :=
  sort_values _ (fun r => Some (reg_Total_hosp r)) false
    (map with_ICU_pct
       (filter (fun g => 0 <? g_Total_hosp g) (groupby_WHO_region_sum dfg))).

(** Lines 138-151. *)
Definition key_insights (dfg : DataFrame) (window : Window) : Cards :=
  let ts := df_ts_cards dfg window in
  mkCards (total_hosp_hist dfg) (total_icu_hist dfg)
          (peak_value ts_hosp ts) (peak_value ts_icu ts).

(** Lines 202-258; [None] when [idxmax] or [.loc] raises. *)
Definition global_evolution (dfg : DataFrame) (window : Window)
  : option Overview :=
  let ts := df_ts dfg window in
  match peak_date ts_hosp ts, peak_date ts_icu ts with
  | Some hd, Some id =>
      Some (mkOverview ts (peak_value ts_hosp ts) hd (peak_value ts_icu ts) id)
  | _, _ => None
  end.

(** The whole script, from the filter panel on. *)
Definition app (df : DataFrame) (window : Window)
  (date_range : option (Z * Z)) (view_mode : ViewMode)
  (metric_choice : MetricChoice) : Outcome :=
  let '(start_date, end_date) := date_bounds df date_range in
  let dfg := df_global df start_date end_date in
  match dfg with
  | [] => Stopped
  | _ :: _ =>
      match global_evolution dfg window with
      | None => Raised
      | Some ov =>
          Rendered (mkPage (key_insights dfg window) ov
                           (country_tab dfg window view_mode metric_choice)
                           (df_reg dfg))
      end
  end.

End Pipeline.

(** ** Vocabulary of the specification *)

(** [ts] is the daily series of [dfg] for the columns [hc] and [ic]: one
    row per date present, holding the sums of the non-missing values of
    that date, in ascending date order. *)
Definition is_daily_totals (dfg : DataFrame) (hc ic : metric_col)
  (ts : list ts_row) : Prop :=
  NoDup (map ts_Date_reported ts) /\
  (forall d, In d (map ts_Date_reported ts) <->
             exists r, In r dfg /\ Date_reported r = Some d) /\
  (forall t, In t ts ->
     let rows := get_group Z.eqb Date_reported (ts_Date_reported t) dfg in
     ts_hosp t = Zsum (dropna (map (col hc) rows)) /\
     ts_icu t = Zsum (dropna (map (col ic) rows))) /\
  StronglySorted (fun a b => ts_Date_reported a < ts_Date_reported b) ts.

(** [value] at [date] is the peak of column [f] of the series [ts]: the
    maximum, no row above it, at the earliest date at which it is reached. *)
Definition is_peak (f : ts_row -> Z) (ts : list ts_row)
  (value : option Z) (date : Z) : Prop :=
  exists t,
    In t ts /\ value = Some (f t) /\ date = ts_Date_reported t /\
    Forall (fun t' => f t' <= f t) ts /\
    (forall t', In t' ts ->
                ts_Date_reported t' < ts_Date_reported t -> f t' < f t).

(** The distinct countries named in a frame, in first-seen order. *)
Definition distinct_countries (dfs : DataFrame) : list string :=
  nodup string_dec (dropna (map Country dfs)).

(** The position of the first row of a country. *)
Fixpoint first_seen (c : string) (dfs : DataFrame) : option nat :=
  match dfs with
  | [] => None
  | r :: dfs' =>
      if key_is String.eqb c (Country r) then Some 0%nat
      else option_map S (first_seen c dfs')
  end.

(** Rows of equal total appear in the ranking in the order in which their
    countries first appear in the scoped subset. *)
Definition ties_keep_first_seen_order (rank : list rank_row)
  (dfs : DataFrame) : Prop :=
  forall l1 a l2 b l3,
    rank = l1 ++ a :: l2 ++ b :: l3 ->
    Total_hosp a = Total_hosp b ->
    exists i j,
      first_seen (rk_Country a) dfs = Some i /\
      first_seen (rk_Country b) dfs = Some j /\
      (i < j)%nat.


(** The six WHO region codes the country tab offers. *)
Definition region_codes : list string :=
  ["AMR"; "EUR"; "AFR"; "EMR"; "SEAR"; "WPR"]%string.

(** No row of the regional summary carries the region of row [r]. *)
Definition excluded_from_regional_summary (summary : list reg_row)
  (r : Row) : Prop :=
  forall g, WHO_region r = Some g -> ~ In g (map reg_WHO_region summary).

(** ** Further vocabulary *)

(** [pd.notna] on one cell. *)
Definition notna {A : Type} (o : option A) : bool :=
  match o with
  | Some _ => true
  | None => false
  end.

(** Lines 175 and 183: the number a peak card prints,
    [int(peak) if pd.notna(peak) else 0]. *)
Definition peak_card_number (peak : option Z) : Z :=
  match peak with
  | Some v => v
  | None => 0
  end.

(** Every value present in column [c] is non-negative. *)
Definition nonneg (c : metric_col) (df : DataFrame) : Prop :=
  forall r v, In r df -> col c r = Some v -> 0 <= v.

(** [group_total by_ c k df total]: [total] is the sum of the values
    present in column [c] over the rows of [df] whose key [by_] is [k],
    read off the table row by row.  A row of another key, or without a
    key, adds nothing; neither does a missing value. *)
Inductive group_total {K : Type} (by_ : Row -> option K)
  (c : Row -> option Z) (k : K) : DataFrame -> Z -> Prop :=
| group_total_nil : group_total by_ c k [] 0
| group_total_value (r : Row) (df : DataFrame) (v total : Z) :
    by_ r = Some k -> c r = Some v ->
    group_total by_ c k df total ->
    group_total by_ c k (r :: df) (v + total)
| group_total_missing (r : Row) (df : DataFrame) (total : Z) :
    by_ r = Some k -> c r = None ->
    group_total by_ c k df total ->
    group_total by_ c k (r :: df) total
| group_total_other (r : Row) (df : DataFrame) (total : Z) :
    by_ r <> Some k ->
    group_total by_ c k df total ->
    group_total by_ c k (r :: df) total.

(** The exact value of a binary64 number; [None] for an infinity or a
    NaN. *)
Definition float_to_Q (f : PrimFloat.float) : option Q :=
  match FloatOps.Prim2SF f with
  | SpecFloat.S754_zero _ => Some 0%Q
  | SpecFloat.S754_finite s m e =>
      Some ((if s then -1 else 1) * inject_Z (Zpos m) * Qpower 2 e)%Q
  | _ => None
  end.

(** The value stored in the [ICU_pct] column of row [r] is exactly
    [Total_icu / Total_hosp * 100]. *)
Definition ICU_pct_is_exact (r : reg_row) : Prop :=
  exists q,
    float_to_Q (ICU_pct_float64 r) = Some q /\
    (q == inject_Z (reg_Total_icu r) / inject_Z (reg_Total_hosp r) * 100)%Q.

(** ** Sample tables *)

Definition obs (d : Z) (c reg : string) (h7 i7 h28 i28 : option Z) : Row :=
  mkRow (Some d) (Some c) (Some reg) h7 i7 h28 i28.

(** Two weekly reports of one country (days 2021-01-01 and 2021-01-08,
    counted from the epoch). *)
Definition scenario_A : DataFrame :=
  [ obs 18628 "X" "EUR" (Some 100) (Some 10) (Some 500) (Some 40);
    obs 18635 "X" "EUR" (Some 150) (Some 20) (Some 450) (Some 60) ].

(** Six countries over three regions, a blank metric cell and a tie
    between "B" and "A" (with "B" first in the table). *)
Definition sample_rows : DataFrame :=
  [ obs 18628 "B" "EUR" (Some 5) (Some 1) (Some 20) (Some 4);
    obs 18628 "A" "EUR" (Some 5) (Some 2) (Some 20) (Some 8);
    obs 18628 "C" "AMR" (Some 40) None (Some 90) (Some 9);
    obs 18635 "C" "AMR" (Some 60) (Some 70) None (Some 9);
    obs 18635 "D" "WPR" (Some 7) (Some 0) (Some 7) (Some 0);
    obs 18635 "E" "WPR" (Some 8) (Some 0) (Some 8) (Some 0) ].

(** A row whose region is none of the six codes. *)
Definition row_F : Row :=
  obs 18642 "F" "OTHER" (Some 9) (Some 3) (Some 9) (Some 3).

(** A row whose date did not parse. *)
Definition row_G : Row :=
  mkRow None (Some "G"%string) (Some "AFR"%string) (Some 1000) (Some 1)
        (Some 1) (Some 1).

Definition sample_df : DataFrame := sample_rows ++ [row_F; row_G].

(** The sample table filtered to its whole span: [row_G] is gone. *)
Definition sample_dfg : DataFrame :=
  df_global sample_df (Some 18628) (Some 18642).

(** Two countries with equal totals, "B" first in the table. *)
Definition tie_df : DataFrame :=
  [ obs 18628 "B" "EUR" (Some 5) (Some 1) (Some 20) (Some 4);
    obs 18628 "A" "EUR" (Some 5) (Some 2) (Some 20) (Some 8) ].

(** One region reporting more ICU admissions than hospitalizations. *)
Definition icu_heavy_df : DataFrame :=
  [ obs 18628 "C" "AMR" (Some 10) (Some 20) None None ].

(** One region with 3 ICU admissions for 9 hospitalizations. *)
Definition third_df : DataFrame :=
  [ obs 18628 "C" "AMR" (Some 9) (Some 3) None None ].

(** Scenario B: one region with 50 ICU admissions for 200
    hospitalizations. *)
Definition quarter_df : DataFrame :=
  [ obs 18628 "X" "EUR" (Some 200) (Some 50) None None ].

(** * Properties *)

(** ** Series reductions *)

Lemma dropna_In {A : Type} (xs : list (option A)) (x : A) :
  In x (dropna xs) <-> In (Some x) xs.
Proof.
  induction xs as [|[y|] xs IH]; simpl.
  - tauto.
  - rewrite IH. split; intros [H|H]; auto; left; congruence.
  - rewrite IH. split; [auto | intros [H|H]; [discriminate | auto]].
Qed.

Lemma dropna_app {A : Type} (xs ys : list (option A)) :
  dropna (xs ++ ys) = dropna xs ++ dropna ys.
Proof.
  induction xs as [|[y|] xs IH]; simpl; rewrite ?IH; reflexivity.
Qed.

Lemma Zsum_app (xs ys : list Z) : Zsum (xs ++ ys) = Zsum xs + Zsum ys.
Proof. induction xs as [|x xs IH]; simpl; lia. Qed.

Lemma series_sum_app (xs ys : list (option Z)) :
  series_sum (xs ++ ys) = series_sum xs + series_sum ys.
Proof. unfold series_sum. rewrite dropna_app. apply Zsum_app. Qed.

Lemma series_sum_cons (x : option Z) (xs : list (option Z)) :
  series_sum (x :: xs) = Zsum (dropna [x]) + series_sum xs.
Proof. unfold series_sum. destruct x; simpl; lia. Qed.

Lemma Zmax_list_spec (xs : list Z) :
  match Zmax_list xs with
  | None => xs = []
  | Some m => In m xs /\ Forall (fun x => x <= m) xs
  end.
Proof.
  induction xs as [|x xs IH]; simpl; [reflexivity|].
  destruct (Zmax_list xs) as [m|].
  - destruct IH as [Hin Hall]. split.
    + destruct (Z.max_spec x m) as [[_ ->]|[_ ->]]; auto.
    + constructor; [lia|].
      eapply Forall_impl; [|exact Hall]. simpl. intros; lia.
  - subst xs. split; [now left|]. repeat constructor. lia.
Qed.

(** ** The date filter *)

Lemma df_global_In (df : DataFrame) (start_date end_date : option Z) (r : Row) :
  In r (df_global df start_date end_date) <->
  In r df /\
  exists d s e, Date_reported r = Some d /\ start_date = Some s /\
                end_date = Some e /\ s <= d <= e.
Proof.
  unfold df_global. rewrite filter_In, andb_true_iff.
  unfold ts_ge, ts_le.
  destruct (Date_reported r) as [d|], start_date as [s|], end_date as [e|];
    rewrite ?Z.leb_le;
    (split; intros [Hin H]; split; auto;
     [ try (exists d, s, e; repeat split; tauto);
       try (destruct H; discriminate)
     | destruct H as (d' & s' & e' & Hd & Hs & He & Hr);
       try discriminate;
       try (injection Hd as <-; injection Hs as <-; injection He as <-; lia) ]).
Qed.

(** ** groupby: the group keys *)

Section GroupByFacts.
Context {K : Type}.
Variables eqb ltb : K -> K -> bool.
Hypothesis eqb_eq : forall a b, eqb a b = true <-> a = b.
Hypothesis ltb_irrefl : forall a, ltb a a = false.
Hypothesis ltb_trans :
  forall a b c, ltb a b = true -> ltb b c = true -> ltb a c = true.
Hypothesis ltb_connected :
  forall a b, eqb a b = false -> ltb a b = false -> ltb b a = true.

Lemma insert_key_In (k : K) (ks : list K) (x : K) :
  In x (insert_key eqb ltb k ks) <-> x = k \/ In x ks.
Proof.
  induction ks as [|k' ks IH]; simpl.
  - intuition.
  - destruct (eqb k k') eqn:E.
    + apply eqb_eq in E. subst k'. simpl. intuition.
    + destruct (ltb k k'); simpl; [intuition|].
      rewrite IH. intuition.
Qed.

Lemma insert_key_sorted (k : K) (ks : list K) :
  StronglySorted (fun a b => ltb a b = true) ks ->
  StronglySorted (fun a b => ltb a b = true) (insert_key eqb ltb k ks).
Proof.
  induction 1 as [|k' ks Hs IH Hall]; simpl.
  - repeat constructor.
  - destruct (eqb k k') eqn:E; [now constructor|].
    destruct (ltb k k') eqn:L.
    + constructor; [now constructor|].
      constructor; [exact L|].
      eapply Forall_impl; [|exact Hall]. simpl. intros b Hb.
      now apply ltb_trans with k'.
    + constructor; [exact IH|].
      apply Forall_forall. intros x Hx.
      apply insert_key_In in Hx. destruct Hx as [->|Hx].
      * now apply ltb_connected.
      * rewrite Forall_forall in Hall. now apply Hall.
Qed.

Lemma group_keys_In (keys : list (option K)) (k : K) :
  In k (group_keys eqb ltb keys) <-> In (Some k) keys.
Proof.
  unfold group_keys. rewrite <- dropna_In.
  induction (dropna keys) as [|x xs IH]; simpl; [tauto|].
  rewrite insert_key_In, IH. intuition.
Qed.

Lemma group_keys_sorted (keys : list (option K)) :
  StronglySorted (fun a b => ltb a b = true) (group_keys eqb ltb keys).
Proof.
  unfold group_keys.
  induction (dropna keys) as [|x xs IH]; simpl; [constructor|].
  now apply insert_key_sorted.
Qed.

Lemma strictly_sorted_NoDup (l : list K) :
  StronglySorted (fun a b => ltb a b = true) l -> NoDup l.
Proof.
  induction 1 as [|a l Hs IH Hall]; constructor; auto.
  intro Hin. rewrite Forall_forall in Hall.
  specialize (Hall a Hin). now rewrite ltb_irrefl in Hall.
Qed.

Lemma group_keys_NoDup (keys : list (option K)) :
  NoDup (group_keys eqb ltb keys).
Proof. apply strictly_sorted_NoDup, group_keys_sorted. Qed.

Lemma strictly_sorted_ext (l1 l2 : list K) :
  StronglySorted (fun a b => ltb a b = true) l1 ->
  StronglySorted (fun a b => ltb a b = true) l2 ->
  (forall x, In x l1 <-> In x l2) ->
  l1 = l2.
Proof.
  intros H1. revert l2.
  induction H1 as [|a l1 Hs1 IH Hall1]; intros l2 H2 Hext.
  - destruct l2 as [|b l2]; [reflexivity|].
    destruct (proj2 (Hext b)). now left.
  - destruct H2 as [|b l2 Hs2 Hall2].
    + destruct (proj1 (Hext a)). now left.
    + rewrite Forall_forall in Hall1, Hall2.
      assert (Hab : a = b).
      { destruct (proj1 (Hext a) (or_introl eq_refl)) as [Ha|Ha]; [congruence|].
        destruct (proj2 (Hext b) (or_introl eq_refl)) as [Hb|Hb]; [congruence|].
        pose proof (ltb_trans _ _ _ (Hall1 _ Hb) (Hall2 _ Ha)) as Hc.
        now rewrite ltb_irrefl in Hc. }
      subst b. f_equal. apply IH; [exact Hs2|].
      intros x. split; intros Hx.
      * destruct (proj1 (Hext x) (or_intror Hx)) as [<-|Hx']; [|exact Hx'].
        specialize (Hall1 _ Hx). now rewrite ltb_irrefl in Hall1.
      * destruct (proj2 (Hext x) (or_intror Hx)) as [<-|Hx']; [|exact Hx'].
        specialize (Hall2 _ Hx). now rewrite ltb_irrefl in Hall2.
Qed.

(** The group keys depend on the set of keys present, not on their order. *)
Lemma group_keys_ext (keys1 keys2 : list (option K)) :
  (forall k, In (Some k) keys1 <-> In (Some k) keys2) ->
  group_keys eqb ltb keys1 = group_keys eqb ltb keys2.
Proof.
  intros Hext. apply strictly_sorted_ext; try apply group_keys_sorted.
  intros k. now rewrite !group_keys_In.
Qed.

Lemma get_group_In (by_ : Row -> option K) (k : K) (df : DataFrame) (r : Row) :
  In r (get_group eqb by_ k df) <-> In r df /\ by_ r = Some k.
Proof.
  unfold get_group. rewrite filter_In. unfold key_is.
  destruct (by_ r) as [k'|].
  - rewrite eqb_eq. intuition congruence.
  - intuition congruence.
Qed.

End GroupByFacts.

(** The two key orders the script groups by: timestamps and names. *)

Lemma Z_ltb_trans (a b c : Z) :
  (a <? b) = true -> (b <? c) = true -> (a <? c) = true.
Proof. rewrite !Z.ltb_lt. lia. Qed.

Lemma Z_ltb_connected (a b : Z) :
  (a =? b) = false -> (a <? b) = false -> (b <? a) = true.
Proof. rewrite Z.eqb_neq, Z.ltb_ge, Z.ltb_lt. lia. Qed.

Lemma string_ltb_lt (a b : string) :
  String.ltb a b = true <-> String_as_OT.lt a b.
Proof.
  rewrite <- String_as_OT.cmp_lt. unfold String.ltb, String_as_OT.cmp.
  destruct (String.compare a b); split; congruence.
Qed.

Lemma string_ltb_irrefl (a : string) : String.ltb a a = false.
Proof.
  unfold String.ltb.
  pose proof (proj2 (String_as_OT.cmp_eq a a) eq_refl) as E.
  unfold String_as_OT.cmp in E. now rewrite E.
Qed.

Lemma string_ltb_trans (a b c : string) :
  String.ltb a b = true -> String.ltb b c = true -> String.ltb a c = true.
Proof. rewrite !string_ltb_lt. apply String_as_OT.lt_trans. Qed.

Lemma string_ltb_connected (a b : string) :
  String.eqb a b = false -> String.ltb a b = false -> String.ltb b a = true.
Proof.
  rewrite String.eqb_neq. unfold String.ltb.
  rewrite (String.compare_antisym b a).
  destruct (String.compare a b) eqn:E; simpl; try congruence.
  apply String.compare_eq_iff in E. congruence.
Qed.

Lemma date_keys_In (dfg : DataFrame) (d : Z) :
  In d (group_keys Z.eqb Z.ltb (map Date_reported dfg)) <->
  exists r, In r dfg /\ Date_reported r = Some d.
Proof.
  rewrite (group_keys_In _ _ Z.eqb_eq), in_map_iff.
  split; intros (r & H1 & H2); exists r; auto.
Qed.

Lemma date_keys_sorted (dfg : DataFrame) :
  StronglySorted Z.lt (group_keys Z.eqb Z.ltb (map Date_reported dfg)).
Proof.
  pose proof (group_keys_sorted Z.eqb Z.ltb Z.eqb_eq Z_ltb_trans
                Z_ltb_connected (map Date_reported dfg)) as H.
  induction H as [|a l Hs IH Hall]; constructor; auto.
  eapply Forall_impl; [|exact Hall]. simpl. intros b. apply Z.ltb_lt.
Qed.

Lemma name_keys_In (by_ : Row -> option string) (df : DataFrame) (c : string) :
  In c (group_keys String.eqb String.ltb (map by_ df)) <->
  exists r, In r df /\ by_ r = Some c.
Proof.
  rewrite (group_keys_In _ _ String.eqb_eq), in_map_iff.
  split; intros (r & H1 & H2); exists r; auto.
Qed.

Lemma name_keys_sorted (keys : list (option string)) :
  StronglySorted (fun a b => String.ltb a b = true)
                 (group_keys String.eqb String.ltb keys).
Proof.
  apply group_keys_sorted.
  - apply String.eqb_eq.
  - apply string_ltb_trans.
  - apply string_ltb_connected.
Qed.

Lemma name_keys_NoDup (keys : list (option string)) :
  NoDup (group_keys String.eqb String.ltb keys).
Proof.
  apply strictly_sorted_NoDup with (ltb := String.ltb).
  - apply string_ltb_irrefl.
  - apply name_keys_sorted.
Qed.

(** ** Index labels *)

Lemma combine_seq_values {A : Type} (rows : list A) (n : nat) :
  map snd (combine (seq n (List.length rows)) rows) = rows.
Proof.
  revert n. induction rows as [|a rows IH]; intros n; simpl; [reflexivity|].
  now rewrite IH.
Qed.

Lemma values_reset_index {A : Type} (rows : list A) :
  values (reset_index rows) = rows.
Proof. apply combine_seq_values. Qed.

Lemma combine_seq_labels {A : Type} (rows : list A) (n : nat) :
  map fst (combine (seq n (List.length rows)) rows) = seq n (List.length rows).
Proof.
  revert n. induction rows as [|a rows IH]; intros n; simpl; [reflexivity|].
  now rewrite IH.
Qed.

Lemma reset_index_labels_NoDup {A : Type} (rows : list A) :
  NoDup (map fst (reset_index rows)).
Proof. unfold reset_index. rewrite combine_seq_labels. apply seq_NoDup. Qed.

(** ** sort_values *)

(** A list with strictly increasing keys has one ordered arrangement. *)
Lemma sorted_permutation_unique {A : Type} (key : A -> Z) (l l' : list A) :
  StronglySorted (fun a b => key a < key b) l ->
  StronglySorted (fun a b => key a <= key b) l' ->
  Permutation l l' ->
  l' = l.
Proof.
  intros Hl. revert l'.
  induction Hl as [|a l Hs IH Hall]; intros l' Hl' Hp.
  - now apply Permutation_nil in Hp.
  - destruct l' as [|b l'].
    + apply Permutation_sym, Permutation_nil in Hp. discriminate.
    + inversion Hl' as [|? ? Hs' Hall']; subst.
      rewrite Forall_forall in Hall, Hall'.
      assert (Hab : a = b).
      { assert (Ha : In a (b :: l')) by (eapply Permutation_in; [exact Hp|now left]).
        assert (Hb : In b (a :: l))
          by (eapply Permutation_in; [apply Permutation_sym; exact Hp|now left]).
        destruct Ha as [Ha|Ha]; [congruence|].
        destruct Hb as [Hb|Hb]; [congruence|].
        specialize (Hall _ Hb). specialize (Hall' _ Ha). lia. }
      subst b. f_equal. apply IH; [exact Hs'|].
      now apply Permutation_cons_inv with a.
Qed.

Lemma key_leb_le (ascending : bool) (a b : option Z) :
  key_leb ascending a b = true <-> key_le ascending a b.
Proof.
  destruct a, b, ascending; simpl; rewrite ?Z.leb_le;
    intuition (auto; discriminate).
Qed.

Lemma key_le_trans (ascending : bool) (a b c : option Z) :
  key_le ascending a b -> key_le ascending b c -> key_le ascending a c.
Proof. destruct a, b, c, ascending; simpl; auto; try lia; tauto. Qed.

Lemma key_le_total (ascending : bool) (a b : option Z) :
  key_le ascending a b \/ key_le ascending b a.
Proof. destruct a, b, ascending; simpl; auto; lia. Qed.

Lemma insert_sorted_perm {A : Type} (key : A -> option Z) (asc : bool)
  (a : A) (l : list A) :
  Permutation (a :: l) (insert_sorted key asc a l).
Proof.
  induction l as [|b l IH]; simpl; [reflexivity|].
  destruct (key_leb asc (key a) (key b)); [reflexivity|].
  rewrite perm_swap. now constructor.
Qed.

Lemma insert_sorted_sorted {A : Type} (key : A -> option Z) (asc : bool)
  (a : A) (l : list A) :
  StronglySorted (fun x y => key_le asc (key x) (key y)) l ->
  StronglySorted (fun x y => key_le asc (key x) (key y))
                 (insert_sorted key asc a l).
Proof.
  induction 1 as [|b l Hs IH Hall]; simpl.
  - repeat constructor.
  - destruct (key_leb asc (key a) (key b)) eqn:E.
    + apply key_leb_le in E.
      constructor; [now constructor|].
      constructor; [exact E|].
      eapply Forall_impl; [|exact Hall]. simpl. intros c Hc.
      now apply key_le_trans with (key b).
    + constructor; [exact IH|].
      apply Forall_forall. intros x Hx.
      apply (Permutation_in _ (Permutation_sym (insert_sorted_perm key asc a l)))
        in Hx.
      destruct Hx as [<-|Hx].
      * destruct (key_le_total asc (key a) (key b)) as [H|H]; [|exact H].
        apply key_leb_le in H. congruence.
      * rewrite Forall_forall in Hall. now apply Hall.
Qed.

Lemma stable_sort_values_spec : sort_values_spec stable_sort_values.
Proof.
  split; intros A key asc l; unfold stable_sort_values.
  - induction l as [|a l IH]; simpl; [constructor|].
    etransitivity; [|apply insert_sorted_perm]. now constructor.
  - induction l as [|a l IH]; simpl; [constructor|].
    now apply insert_sorted_sorted.
Qed.

Lemma StronglySorted_map {A B : Type} (f : A -> B) (R : B -> B -> Prop)
  (l : list A) :
  StronglySorted R (map f l) <-> StronglySorted (fun a b => R (f a) (f b)) l.
Proof.
  induction l as [|a l IH]; simpl.
  - split; constructor.
  - split; intros H; inversion H; subst; constructor;
      try (now apply IH); rewrite Forall_map in *; assumption.
Qed.

Lemma StronglySorted_after {A : Type} (R : A -> A -> Prop)
  (l1 l2 : list A) (a : A) :
  StronglySorted R (l1 ++ a :: l2) -> Forall (R a) l2.
Proof.
  induction l1 as [|b l1 IH]; simpl; intros H; inversion H; subst; auto.
Qed.

(** ** The daily global series *)

Lemma groupby_Date_reported_sum_values (dfg : DataFrame) (hc ic : metric_col) :
  values (groupby_Date_reported_sum dfg hc ic) =
  map (fun d =>
         let g := get_group Z.eqb Date_reported d dfg in
         mk_ts d (series_sum (map (col hc) g)) (series_sum (map (col ic) g)))
      (group_keys Z.eqb Z.ltb (map Date_reported dfg)).
Proof. unfold groupby_Date_reported_sum. apply values_reset_index. Qed.

Lemma groupby_Date_reported_sum_dates (dfg : DataFrame) (hc ic : metric_col) :
  map ts_Date_reported (values (groupby_Date_reported_sum dfg hc ic)) =
  group_keys Z.eqb Z.ltb (map Date_reported dfg).
Proof.
  rewrite groupby_Date_reported_sum_values, map_map. simpl. apply map_id.
Qed.

Lemma groupby_Date_reported_sum_sorted (dfg : DataFrame) (hc ic : metric_col) :
  StronglySorted
    (fun a b => ts_Date_reported (snd a) < ts_Date_reported (snd b))
    (groupby_Date_reported_sum dfg hc ic).
Proof.
  apply (StronglySorted_map snd
           (fun a b => ts_Date_reported a < ts_Date_reported b)).
  apply (StronglySorted_map ts_Date_reported Z.lt).
  fold (values (groupby_Date_reported_sum dfg hc ic)).
  rewrite groupby_Date_reported_sum_dates. apply date_keys_sorted.
Qed.

(** ** Peaks *)

Lemma idxmax_from_spec (s pre mid : list (nat * Z)) (b : nat * Z) :
  Forall (fun x => snd x < snd b) pre ->
  Forall (fun x => snd x <= snd b) mid ->
  exists s1 i m s2,
    pre ++ b :: mid ++ s = s1 ++ (i, m) :: s2 /\
    idxmax_from b s = i /\
    Forall (fun x => snd x < m) s1 /\
    Forall (fun x => snd x <= m) s2.
Proof.
  revert pre mid b.
  induction s as [|[i v] s IH]; intros pre mid [bi bv] Hpre Hmid; simpl in *.
  - exists pre, bi, bv, mid. rewrite app_nil_r. auto.
  - destruct (bv <? v) eqn:E.
    + apply Z.ltb_lt in E.
      destruct (IH (pre ++ (bi, bv) :: mid) [] (i, v)) as (s1 & j & m & s2 & H).
      * apply Forall_app. split.
        -- eapply Forall_impl; [|exact Hpre]. simpl. intros; lia.
        -- constructor; [simpl; lia|].
           eapply Forall_impl; [|exact Hmid]. simpl. intros; lia.
      * constructor.
      * exists s1, j, m, s2. simpl in H.
        rewrite <- app_assoc in H. simpl in H. exact H.
    + apply Z.ltb_ge in E.
      destruct (IH pre (mid ++ [(i, v)]) (bi, bv)) as (s1 & j & m & s2 & H).
      * exact Hpre.
      * apply Forall_app. split; [exact Hmid|]. repeat constructor. simpl. lia.
      * exists s1, j, m, s2.
        rewrite <- app_assoc in H. simpl in H. exact H.
Qed.

(** [idxmax] on a non-empty series: the label of a position that holds
    the maximum, with only smaller values before it. *)
Lemma idxmax_spec (s : list (nat * Z)) :
  s <> [] ->
  exists s1 i m s2,
    s = s1 ++ (i, m) :: s2 /\
    idxmax s = Some i /\
    Forall (fun x => snd x < m) s1 /\
    Forall (fun x => snd x <= m) s2.
Proof.
  destruct s as [|b s]; [congruence|]. intros _.
  destruct (idxmax_from_spec s [] [] b) as (s1 & i & m & s2 & H1 & H2 & H3 & H4);
    try constructor.
  exists s1, i, m, s2. simpl in *. rewrite H2. auto.
Qed.

Lemma loc_middle {A : Type} (l1 l2 : list (nat * A)) (i : nat) (a : A) :
  NoDup (map fst (l1 ++ (i, a) :: l2)) ->
  loc (l1 ++ (i, a) :: l2) i = Some a.
Proof.
  induction l1 as [|[j b] l1 IH]; simpl; intros H.
  - now rewrite Nat.eqb_refl.
  - inversion H as [|? ? Hnotin Hnd]; subst.
    destruct (Nat.eqb j i) eqn:E.
    + apply Nat.eqb_eq in E. subst j. exfalso. apply Hnotin.
      rewrite map_app, in_app_iff. right. now left.
    + now apply IH.
Qed.

Lemma Zmax_list_unique (xs : list Z) (m : Z) :
  In m xs -> Forall (fun x => x <= m) xs -> Zmax_list xs = Some m.
Proof.
  intros Hin Hall. pose proof (Zmax_list_spec xs) as H.
  destruct (Zmax_list xs) as [m'|].
  - destruct H as [Hin' Hall']. rewrite Forall_forall in Hall, Hall'.
    specialize (Hall _ Hin'). specialize (Hall' _ Hin). f_equal. lia.
  - subst xs. destruct Hin.
Qed.

(** The peak of one column of a daily series whose labels are distinct
    and whose dates increase: the maximum, at its earliest date. *)
Lemma peak_spec (f : ts_row -> Z) (ts : list (nat * ts_row)) :
  ts <> [] ->
  NoDup (map fst ts) ->
  StronglySorted
    (fun a b => ts_Date_reported (snd a) < ts_Date_reported (snd b)) ts ->
  exists t,
    In t (values ts) /\
    peak_value f ts = Some (f t) /\
    peak_date f ts = Some (ts_Date_reported t) /\
    Forall (fun t' => f t' <= f t) (values ts) /\
    (forall t', In t' (values ts) ->
                ts_Date_reported t' < ts_Date_reported t -> f t' < f t).
Proof.
  intros Hne Hnd Hsorted.
  destruct (idxmax_spec (ts_series f ts)) as (s1 & i & m & s2 & Hs & Hi & H1 & H2).
  { destruct ts; [congruence|discriminate]. }
  unfold ts_series in Hs.
  apply map_eq_app in Hs. destruct Hs as (l1 & l2' & -> & Hl1 & Hl2).
  apply map_eq_cons in Hl2. destruct Hl2 as ([j t] & l2 & -> & Hjt & Hl2).
  simpl in Hjt. injection Hjt as -> <-. subst s1 s2.
  rewrite Forall_map in H1, H2. simpl in H1, H2.
  assert (Hall : Forall (fun t' => f t' <= f t) (values (l1 ++ (i, t) :: l2))).
  { unfold values. rewrite Forall_map. apply Forall_app. split.
    - eapply Forall_impl; [|exact H1]. simpl. intros; lia.
    - constructor; [simpl; lia | exact H2]. }
  exists t. repeat split.
  - unfold values. rewrite map_app. apply in_or_app. right. now left.
  - unfold peak_value. apply Zmax_list_unique.
    + apply in_map. unfold values. rewrite map_app. apply in_or_app.
      right. now left.
    + rewrite Forall_map. exact Hall.
  - unfold peak_date. rewrite Hi, (loc_middle _ _ _ _ Hnd).
    reflexivity.
  - exact Hall.
  - intros t' Hin Hlt. unfold values in Hin.
    apply in_map_iff in Hin. destruct Hin as ([k u] & Hu & Hin).
    simpl in Hu. subst u.
    apply in_app_or in Hin. destruct Hin as [Hin|[Heq|Hin]].
    + rewrite Forall_forall in H1. exact (H1 _ Hin).
    + injection Heq as _ ->. lia.
    + apply StronglySorted_after in Hsorted.
      rewrite Forall_forall in Hsorted. specialize (Hsorted _ Hin).
      simpl in Hsorted. lia.
Qed.

(** ** The country ranking *)

Lemma Permutation_filter {A : Type} (f : A -> bool) (l l' : list A) :
  Permutation l l' -> Permutation (filter f l) (filter f l').
Proof.
  induction 1 as [|x l l' _ IH|x y l|l l' l'' _ IH1 _ IH2]; simpl.
  - constructor.
  - destruct (f x); [now constructor | exact IH].
  - destruct (f x), (f y); try reflexivity. apply perm_swap.
  - now transitivity (filter f l').
Qed.

Lemma series_sum_Permutation (xs ys : list (option Z)) :
  Permutation xs ys -> series_sum xs = series_sum ys.
Proof.
  unfold series_sum.
  induction 1 as [|[x|] l l' _ IH|[x|] [y|] l|l l' l'' _ IH1 _ IH2];
    simpl; lia.
Qed.

Lemma group_sum_Permutation {K : Type} (eqb : K -> K -> bool)
  (by_ : Row -> option K) (k : K) (c : metric_col) (df df' : DataFrame) :
  Permutation df df' ->
  series_sum (map (col c) (get_group eqb by_ k df)) =
  series_sum (map (col c) (get_group eqb by_ k df')).
Proof.
  intros H. apply series_sum_Permutation, Permutation_map.
  now apply Permutation_filter.
Qed.

Lemma name_keys_Permutation (by_ : Row -> option string) (df df' : DataFrame) :
  Permutation df df' ->
  group_keys String.eqb String.ltb (map by_ df) =
  group_keys String.eqb String.ltb (map by_ df').
Proof.
  intros H.
  apply (group_keys_ext String.eqb String.ltb String.eqb_eq string_ltb_irrefl
           string_ltb_trans string_ltb_connected).
  intros k. split; apply Permutation_in; apply Permutation_map;
    [exact H | now apply Permutation_sym].
Qed.

(** The grouped totals do not depend on the order of the rows. *)
Lemma groupby_Country_sum_Permutation (dfs dfs' : DataFrame) :
  Permutation dfs dfs' -> groupby_Country_sum dfs = groupby_Country_sum dfs'.
Proof.
  intros H. unfold groupby_Country_sum.
  rewrite (name_keys_Permutation Country dfs dfs' H).
  apply map_ext. intros c. f_equal. now apply group_sum_Permutation.
Qed.

Lemma groupby_Country_sum_countries (dfs : DataFrame) :
  map rk_Country (groupby_Country_sum dfs) =
  group_keys String.eqb String.ltb (map Country dfs).
Proof. unfold groupby_Country_sum. rewrite map_map. simpl. apply map_id. Qed.


Lemma distinct_countries_Permutation (dfs : DataFrame) :
  Permutation (distinct_countries dfs)
              (group_keys String.eqb String.ltb (map Country dfs)).
Proof.
  apply NoDup_Permutation.
  - apply NoDup_nodup.
  - apply name_keys_NoDup.
  - intros c. unfold distinct_countries.
    rewrite nodup_In, dropna_In. symmetry.
    apply (group_keys_In _ _ String.eqb_eq).
Qed.

(** ** The regional summary *)

Lemma groupby_WHO_region_sum_regions (dfg : DataFrame) :
  map g_WHO_region (groupby_WHO_region_sum dfg) =
  group_keys String.eqb String.ltb (map WHO_region dfg).
Proof. unfold groupby_WHO_region_sum. rewrite map_map. simpl. apply map_id. Qed.

Lemma groupby_WHO_region_sum_In (dfg : DataFrame) (s : reg_sums) :
  In s (groupby_WHO_region_sum dfg) <->
  (exists r, In r dfg /\ WHO_region r = Some (g_WHO_region s)) /\
  g_Total_hosp s =
    Zsum (dropna (map hosp_7d
                      (get_group String.eqb WHO_region (g_WHO_region s) dfg))) /\
  g_Total_icu s =
    Zsum (dropna (map icu_7d
                      (get_group String.eqb WHO_region (g_WHO_region s) dfg))).
Proof.
  unfold groupby_WHO_region_sum. rewrite in_map_iff. split.
  - intros (g & <- & Hg). simpl. apply name_keys_In in Hg. auto.
  - intros (Hg & Hh & Hi). exists (g_WHO_region s). split.
    + destruct s as [g h i]. simpl in *. now subst.
    + now apply name_keys_In.
Qed.

Lemma ICU_pct_exact (s : reg_sums) :
  0 < g_Total_hosp s ->
  (ICU_pct (with_ICU_pct s) * inject_Z (g_Total_hosp s) ==
   100 * inject_Z (g_Total_icu s))%Q.
Proof.
  intros Hpos. unfold with_ICU_pct. simpl.
  assert (Hnz : ~ (inject_Z (g_Total_hosp s) == 0)%Q).
  { unfold Qeq, inject_Z. simpl. lia. }
  field. exact Hnz.
Qed.

Lemma sort_values_singleton {A : Type} (key : A -> option Z) (asc : bool)
  (a : A) (sort_values : sort_fun) :
  sort_values_spec sort_values -> sort_values A key asc [a] = [a].
Proof.
  intros Hs. apply Permutation_length_1_inv, (sort_values_perm _ Hs).
Qed.

(** ** Group totals *)

Lemma group_total_unique {K : Type} (by_ : Row -> option K)
  (c : Row -> option Z) (k : K) (df : DataFrame) (t1 t2 : Z) :
  group_total by_ c k df t1 -> group_total by_ c k df t2 -> t1 = t2.
Proof.
  intros H1. revert t2.
  induction H1 as [|r df v t Hk Hv _ IH|r df t Hk Hv _ IH|r df t Hk _ IH];
    intros t2 H2; inversion H2; subst; try congruence.
  - assert (v = v0) by congruence. subst v0. f_equal. now apply IH.
  - now apply IH.
  - now apply IH.
Qed.

(** The sum [groupby] computes for a key is the total of that key. *)
Lemma group_total_get_group {K : Type} (eqb : K -> K -> bool)
  (eqb_eq : forall a b, eqb a b = true <-> a = b)
  (by_ : Row -> option K) (c : Row -> option Z) (k : K) (df : DataFrame) :
  group_total by_ c k df (series_sum (map c (get_group eqb by_ k df))).
Proof.
  induction df as [|r df IH]; [constructor|].
  unfold get_group. cbn [filter]. fold (get_group eqb by_ k df).
  unfold key_is. destruct (by_ r) as [k'|] eqn:Ek.
  - destruct (eqb k' k) eqn:E.
    + apply eqb_eq in E. subst k'. cbn [map]. rewrite series_sum_cons.
      destruct (c r) as [v|] eqn:Ev; simpl.
      * replace (v + 0 + series_sum (map c (get_group eqb by_ k df)))
          with (v + series_sum (map c (get_group eqb by_ k df))) by lia.
        now apply group_total_value.
      * now apply group_total_missing.
    + apply group_total_other; [|exact IH].
      intros H. rewrite Ek in H. injection H as ->.
      assert (eqb k k = true) by now apply eqb_eq. congruence.
  - apply group_total_other; [congruence | exact IH].
Qed.

Lemma group_sum_insert {K : Type} (eqb : K -> K -> bool)
  (eqb_eq : forall a b, eqb a b = true <-> a = b)
  (by_ : Row -> option K) (c : Row -> option Z) (k : K)
  (l1 l2 : DataFrame) (r : Row) :
  by_ r = Some k ->
  series_sum (map c (get_group eqb by_ k (l1 ++ r :: l2))) =
  series_sum (map c (get_group eqb by_ k (l1 ++ l2))) + Zsum (dropna [c r]).
Proof.
  intros Hk. unfold get_group. rewrite !filter_app. cbn [filter].
  unfold key_is at 2. rewrite Hk.
  replace (eqb k k) with true by (symmetry; now apply eqb_eq).
  rewrite !map_app, !series_sum_app. cbn [map]. rewrite series_sum_cons. lia.
Qed.

Section PipelineFacts.
Variable sort_values : sort_fun.
Hypothesis sort_ok : sort_values_spec sort_values.

(** The keys of the grouped frame are distinct and already ascending, so
    sorting it by date leaves it as it is, labels included. *)
Lemma df_ts_groupby (dfg : DataFrame) (window : Window) :
  df_ts sort_values dfg window =
  groupby_Date_reported_sum dfg (hosp_col window) (icu_col window).
Proof.
  unfold df_ts.
  apply sorted_permutation_unique
    with (key := fun ir : nat * ts_row => ts_Date_reported (snd ir)).
  - apply groupby_Date_reported_sum_sorted.
  - exact (sort_values_sorted _ sort_ok _
             (fun ir : nat * ts_row => Some (ts_Date_reported (snd ir)))
             true _).
  - apply (sort_values_perm _ sort_ok).
Qed.


Lemma groupby_Date_reported_sum_daily_totals (dfg : DataFrame)
  (hc ic : metric_col) :
  is_daily_totals dfg hc ic (values (groupby_Date_reported_sum dfg hc ic)).
Proof.
  repeat split.
  - rewrite groupby_Date_reported_sum_dates.
    apply (strictly_sorted_NoDup Z.ltb Z.ltb_irrefl).
    apply (group_keys_sorted Z.eqb Z.ltb Z.eqb_eq Z_ltb_trans Z_ltb_connected).
  - rewrite groupby_Date_reported_sum_dates. apply date_keys_In.
  - rewrite groupby_Date_reported_sum_dates. apply date_keys_In.
  - rewrite groupby_Date_reported_sum_values in H.
    apply in_map_iff in H. destruct H as (d & <- & _). reflexivity.
  - rewrite groupby_Date_reported_sum_values in H.
    apply in_map_iff in H. destruct H as (d & <- & _). reflexivity.
  - apply (StronglySorted_map ts_Date_reported Z.lt).
    rewrite groupby_Date_reported_sum_dates. apply date_keys_sorted.
Qed.

Lemma df_global_has_dates (df : DataFrame) (start_date end_date : option Z) :
  df_global df start_date end_date <> [] ->
  forall hc ic,
    groupby_Date_reported_sum (df_global df start_date end_date) hc ic <> [].
Proof.
  intros Hne hc ic Hnil.
  destruct (df_global df start_date end_date) as [|r dfg] eqn:E; [congruence|].
  assert (Hr : In r (df_global df start_date end_date)) by (rewrite E; now left).
  apply df_global_In in Hr. destruct Hr as (_ & d & _ & _ & Hd & _).
  assert (Hin : In d (map ts_Date_reported
                        (values (groupby_Date_reported_sum (r :: dfg) hc ic)))).
  { rewrite groupby_Date_reported_sum_dates. apply date_keys_In.
    exists r. split; [now left | exact Hd]. }
  rewrite Hnil in Hin. destruct Hin.
Qed.

(** With a non-empty filtered subset neither [idxmax] nor [.loc] raises,
    and each peak is the maximum at its earliest date. *)
Lemma global_evolution_defined (df : DataFrame) (start_date end_date : option Z)
  (window : Window) :
  let dfg := df_global df start_date end_date in
  dfg <> [] ->
  exists ov,
    global_evolution sort_values dfg window = Some ov /\
    ov_df_ts ov = df_ts sort_values dfg window /\
    values (ov_df_ts ov) <> [] /\
    is_peak ts_hosp (values (ov_df_ts ov))
            (hosp_peak_value ov) (hosp_peak_date ov) /\
    is_peak ts_icu (values (ov_df_ts ov))
            (icu_peak_value ov) (icu_peak_date ov).
Proof.
  intros dfg Hne. unfold global_evolution.
  rewrite df_ts_groupby.
  set (ts := groupby_Date_reported_sum dfg (hosp_col window) (icu_col window)).
  assert (Hts : ts <> []) by now apply df_global_has_dates.
  assert (Hnd : NoDup (map fst ts)) by apply reset_index_labels_NoDup.
  assert (Hs := groupby_Date_reported_sum_sorted dfg (hosp_col window)
                  (icu_col window)).
  fold ts in Hs.
  destruct (peak_spec ts_hosp ts Hts Hnd Hs) as (th & Hh1 & Hh2 & Hh3 & Hh4 & Hh5).
  destruct (peak_spec ts_icu ts Hts Hnd Hs) as (ti & Hi1 & Hi2 & Hi3 & Hi4 & Hi5).
  rewrite Hh3, Hi3. eexists. split; [reflexivity|]. simpl.
  split; [reflexivity|]. split.
  - destruct ts; [congruence | discriminate].
  - split; [exists th | exists ti]; auto.
Qed.

Lemma df_rank_Permutation (dfs : DataFrame) :
  Permutation (groupby_Country_sum dfs) (df_rank sort_values dfs).
Proof. apply (sort_values_perm _ sort_ok). Qed.

Lemma df_rank_sorted (dfs : DataFrame) :
  StronglySorted (fun a b => Total_hosp a >= Total_hosp b)
                 (df_rank sort_values dfs).
Proof.
  pose proof (sort_values_sorted _ sort_ok _
                (fun r : rank_row => Some (Total_hosp r)) false
                (groupby_Country_sum dfs)) as H.
  fold (df_rank sort_values dfs) in H.
  induction H as [|a l Hs IH Hall]; constructor; auto.
  eapply Forall_impl; [|exact Hall]. simpl. intros; lia.
Qed.

Lemma df_rank_countries (dfs : DataFrame) :
  Permutation (distinct_countries dfs)
              (map rk_Country (df_rank sort_values dfs)).
Proof.
  rewrite distinct_countries_Permutation, <- groupby_Country_sum_countries.
  apply Permutation_map, df_rank_Permutation.
Qed.

Lemma app_rendered (df : DataFrame) (window : Window)
  (date_range : option (Z * Z)) (view_mode : ViewMode)
  (metric_choice : MetricChoice) :
  let dfg := df_global df (fst (date_bounds df date_range))
                          (snd (date_bounds df date_range)) in
  dfg <> [] ->
  exists ov,
    global_evolution sort_values dfg window = Some ov /\
    app sort_values df window date_range view_mode metric_choice =
    Rendered (mkPage (key_insights dfg window) ov
                     (country_tab sort_values dfg window view_mode metric_choice)
                     (df_reg sort_values dfg)).
Proof.
  intros dfg Hne. unfold app.
  destruct (global_evolution_defined _ _ _ window Hne) as (ov & Hov & _).
  exists ov. split; [exact Hov|].
  subst dfg. destruct (date_bounds df date_range) as [s e]. simpl in *.
  destruct (df_global df s e); [congruence|]. now rewrite Hov.
Qed.

Lemma app_stopped (df : DataFrame) (window : Window)
  (date_range : option (Z * Z)) (view_mode : ViewMode)
  (metric_choice : MetricChoice) :
  df_global df (fst (date_bounds df date_range))
               (snd (date_bounds df date_range)) = [] ->
  app sort_values df window date_range view_mode metric_choice = Stopped.
Proof.
  unfold app. destruct (date_bounds df date_range) as [s e]. simpl.
  now intros ->.
Qed.

Lemma df_reg_Permutation (dfg : DataFrame) :
  Permutation
    (map with_ICU_pct
       (filter (fun g => 0 <? g_Total_hosp g) (groupby_WHO_region_sum dfg)))
    (df_reg sort_values dfg).
Proof. apply (sort_values_perm _ sort_ok). Qed.

Lemma df_reg_In (dfg : DataFrame) (r : reg_row) :
  In r (df_reg sort_values dfg) <->
  exists s, In s (groupby_WHO_region_sum dfg) /\ 0 < g_Total_hosp s /\
            r = with_ICU_pct s.
Proof.
  split.
  - intros Hr.
    apply (Permutation_in _ (Permutation_sym (df_reg_Permutation dfg))) in Hr.
    apply in_map_iff in Hr. destruct Hr as (s & <- & Hs).
    apply filter_In in Hs. destruct Hs as [Hs Hpos].
    apply Z.ltb_lt in Hpos. eauto.
  - intros (s & Hs & Hpos & ->).
    apply (Permutation_in _ (df_reg_Permutation dfg)).
    apply in_map, filter_In. split; [exact Hs | now apply Z.ltb_lt].
Qed.

Lemma df_reg_regions (dfg : DataFrame) (g : string) :
  In g (map reg_WHO_region (df_reg sort_values dfg)) <->
  (exists r, In r dfg /\ WHO_region r = Some g) /\
  Zsum (dropna (map hosp_7d (get_group String.eqb WHO_region g dfg))) > 0.
Proof.
  rewrite in_map_iff. split.
  - intros (r & <- & Hr). apply df_reg_In in Hr.
    destruct Hr as (s & Hs & Hpos & ->). simpl.
    apply groupby_WHO_region_sum_In in Hs. destruct Hs as (He & Hh & _).
    split; [exact He | lia].
  - intros (He & Hpos).
    set (rows := get_group String.eqb WHO_region g dfg) in *.
    exists (with_ICU_pct (mk_sums g (Zsum (dropna (map hosp_7d rows)))
                                    (Zsum (dropna (map icu_7d rows))))).
    split; [reflexivity|]. apply df_reg_In. eexists. split; [|split; [|reflexivity]].
    + apply groupby_WHO_region_sum_In. simpl. auto.
    + simpl. lia.
Qed.

Lemma df_reg_NoDup (dfg : DataFrame) :
  NoDup (map reg_WHO_region (df_reg sort_values dfg)).
Proof.
  eapply Permutation_NoDup.
  - apply Permutation_map, df_reg_Permutation.
  - rewrite map_map. simpl.
    assert (H : NoDup (map g_WHO_region (groupby_WHO_region_sum dfg))).
    { rewrite groupby_WHO_region_sum_regions. apply name_keys_NoDup. }
    induction (groupby_WHO_region_sum dfg) as [|s l IH]; simpl; [constructor|].
    inversion H as [|? ? Hnotin Hnd]; subst.
    destruct (0 <? g_Total_hosp s); simpl; [|now apply IH].
    constructor; [|now apply IH].
    intros Hin. apply Hnotin. apply in_map_iff in Hin.
    destruct Hin as (x & Hx & Hin). apply filter_In in Hin.
    apply in_map_iff. exists x. tauto.
Qed.

Lemma df_reg_sorted (dfg : DataFrame) :
  StronglySorted (fun a b => reg_Total_hosp a >= reg_Total_hosp b)
                 (df_reg sort_values dfg).
Proof.
  pose proof (sort_values_sorted _ sort_ok _
                (fun r : reg_row => Some (reg_Total_hosp r)) false
                (map with_ICU_pct
                   (filter (fun g => 0 <? g_Total_hosp g)
                           (groupby_WHO_region_sum dfg)))) as H.
  fold (df_reg sort_values dfg) in H.
  induction H as [|a l Hs IH Hall]; constructor; auto.
  eapply Forall_impl; [|exact Hall]. simpl. intros; lia.
Qed.

Lemma groupby_Date_reported_sum_group_totals (dfg : DataFrame)
  (hc ic : metric_col) (t : ts_row) :
  In t (values (groupby_Date_reported_sum dfg hc ic)) ->
  group_total Date_reported (col hc) (ts_Date_reported t) dfg (ts_hosp t) /\
  group_total Date_reported (col ic) (ts_Date_reported t) dfg (ts_icu t).
Proof.
  rewrite groupby_Date_reported_sum_values, in_map_iff.
  intros (d & <- & _). simpl.
  split; apply (group_total_get_group Z.eqb Z.eqb_eq).
Qed.

Lemma groupby_WHO_region_sum_group_totals (dfg : DataFrame) (s : reg_sums) :
  In s (groupby_WHO_region_sum dfg) ->
  group_total WHO_region hosp_7d (g_WHO_region s) dfg (g_Total_hosp s) /\
  group_total WHO_region icu_7d (g_WHO_region s) dfg (g_Total_icu s).
Proof.
  unfold groupby_WHO_region_sum. rewrite in_map_iff.
  intros (g & <- & _). simpl.
  split; apply (group_total_get_group String.eqb String.eqb_eq).
Qed.

(** A daily series with at least one row has both peaks: the overview is
    produced, its peak values are those of the cards, and no row of the
    series is above them. *)
Lemma peaks_of_series (dfg : DataFrame) (window : Window) :
  groupby_Date_reported_sum dfg (hosp_col window) (icu_col window) <> [] ->
  exists ov vh vi,
    global_evolution sort_values dfg window = Some ov /\
    hosp_peak_value ov = Some vh /\
    peak_hosp (key_insights dfg window) = Some vh /\
    Forall (fun t => ts_hosp t <= vh) (values (df_ts sort_values dfg window)) /\
    icu_peak_value ov = Some vi /\
    peak_icu (key_insights dfg window) = Some vi /\
    Forall (fun t => ts_icu t <= vi) (values (df_ts sort_values dfg window)).
Proof.
  intros Hts. unfold global_evolution, key_insights, df_ts_cards.
  rewrite df_ts_groupby.
  set (ts := groupby_Date_reported_sum dfg (hosp_col window) (icu_col window))
    in *.
  assert (Hnd : NoDup (map fst ts)) by apply reset_index_labels_NoDup.
  assert (Hs := groupby_Date_reported_sum_sorted dfg (hosp_col window)
                  (icu_col window)).
  fold ts in Hs.
  destruct (peak_spec ts_hosp ts Hts Hnd Hs) as (th & _ & Hh2 & Hh3 & Hh4 & _).
  destruct (peak_spec ts_icu ts Hts Hnd Hs) as (ti & _ & Hi2 & Hi3 & Hi4 & _).
  rewrite Hh3, Hi3. eexists. exists (ts_hosp th), (ts_icu ti). simpl.
  repeat split; auto.
Qed.

(** ** The claims *)

(** C1. Date filter correctness: a row of the table is in the filtered
    subset exactly when its date lies between the chosen start and end
    dates, bounds included; a row whose date is missing is in no
    date-filtered result, whatever the bounds. *)
Theorem date_filter_correct (df : DataFrame) (s e : Z) (r : Row) :
  (In r (df_global df (Some s) (Some e)) <->
   In r df /\ exists d, Date_reported r = Some d /\ s <= d <= e) /\
  (forall start_date end_date,
     Date_reported r = None -> ~ In r (df_global df start_date end_date)).
Proof.
  split.
  - rewrite df_global_In. split.
    + intros (Hin & d & s' & e' & Hd & Hs & He & Hr).
      injection Hs as <-. injection He as <-. eauto.
    + intros (Hin & d & Hd & Hr). split; [exact Hin|].
      exists d, s, e. auto.
  - intros start_date end_date Hnone Hin.
    apply df_global_In in Hin. destruct Hin as (_ & d & _ & _ & Hd & _).
    congruence.
Qed.

(** C3. Daily global totals: the daily series of a filtered subset has
    exactly one row per distinct date present in it; the hospitalization
    and ICU values of a row are the totals, over the rows of that date, of
    the values present in the chosen window's columns (the 7-day columns
    for Weekly, the 28-day columns for Monthly), a missing value adding
    nothing; the series is in ascending date order.  The series the cards
    take their peaks from (built without the sort) is the same frame. *)
Theorem daily_totals_correct (df : DataFrame) (start_date end_date : option Z)
  (window : Window) :
  let dfg := df_global df start_date end_date in
  let ts := values (df_ts sort_values dfg window) in
  is_daily_totals dfg (hosp_col window) (icu_col window) ts /\
  (forall t, In t ts ->
     match window with
     | Weekly =>
         group_total Date_reported hosp_7d (ts_Date_reported t) dfg (ts_hosp t) /\
         group_total Date_reported icu_7d (ts_Date_reported t) dfg (ts_icu t)
     | Monthly =>
         group_total Date_reported hosp_28d (ts_Date_reported t) dfg (ts_hosp t) /\
         group_total Date_reported icu_28d (ts_Date_reported t) dfg (ts_icu t)
     end) /\
  df_ts_cards dfg window = df_ts sort_values dfg window.
Proof.
  intros dfg ts. subst ts. rewrite df_ts_groupby. split; [|split].
  - apply groupby_Date_reported_sum_daily_totals.
  - intros t Ht.
    destruct (groupby_Date_reported_sum_group_totals dfg (hosp_col window)
                (icu_col window) t Ht) as [Hh Hi].
    destruct window; split; assumption.
  - reflexivity.
Qed.

(** C2. Peak correctness: when the filtered subset is not empty the daily
    series is not empty either, the overview is produced, and for each of
    the two metrics the reported peak value is the maximum of the metric
    over the series (no row exceeds it) and the reported peak date is the
    earliest date at which that maximum is reached. *)
Theorem peak_correct (df : DataFrame) (start_date end_date : option Z)
  (window : Window) :
  let dfg := df_global df start_date end_date in
  dfg <> [] ->
  exists ov,
    global_evolution sort_values dfg window = Some ov /\
    ov_df_ts ov = df_ts sort_values dfg window /\
    values (ov_df_ts ov) <> [] /\
    is_peak ts_hosp (values (ov_df_ts ov))
            (hosp_peak_value ov) (hosp_peak_date ov) /\
    is_peak ts_icu (values (ov_df_ts ov))
            (icu_peak_value ov) (icu_peak_date ov).
Proof. apply global_evolution_defined. Qed.

(** C4, as the code has it. Country ranking order: the ranking of a scoped subset is
    sorted descending by total, every adjacent pair [(a, b)] having
    [a.total >= b.total].  Its rows are the per-country totals, which
    enter the sort in ascending order of country name, and the ranking is
    the same for any reordering of the rows of the subset: the order of
    countries with equal totals is not their first-seen order. *)
Theorem ranking_sorted_descending (dfs : DataFrame) :
  Sorted (fun a b => Total_hosp a >= Total_hosp b) (df_rank sort_values dfs) /\
  Permutation (groupby_Country_sum dfs) (df_rank sort_values dfs) /\
  StronglySorted (fun a b => String.ltb (rk_Country a) (rk_Country b) = true)
                 (groupby_Country_sum dfs) /\
  (forall dfs', Permutation dfs dfs' ->
                df_rank sort_values dfs' = df_rank sort_values dfs).
Proof.
  split; [|split; [|split]].
  - apply StronglySorted_Sorted, df_rank_sorted.
  - apply df_rank_Permutation.
  - apply (StronglySorted_map rk_Country (fun a b => String.ltb a b = true)).
    rewrite groupby_Country_sum_countries. apply name_keys_sorted.
  - intros dfs' H. unfold df_rank.
    now rewrite (groupby_Country_sum_Permutation dfs dfs' H).
Qed.



(** C7, as the code has it. Regional ICU share: every row of the regional
    summary has a strictly positive 7-day hospitalization total; its
    totals are the totals of the values present in the 7-day columns over
    the rows of its region; the value of its [ICU_pct] column is the
    binary64 result of [Total_icu / Total_hosp * 100], the division and
    then the multiplication, each rounded to nearest; the rows are sorted
    descending by [Total_hosp].  Nothing bounds the percentage by 100:
    some table gives a row above it.  The stored value is the exact
    quotient on some tables (50 of 200 gives 25), not on all. *)
Theorem regional_icu_share (dfg : DataFrame) :
  (forall r, In r (df_reg sort_values dfg) ->
     reg_Total_hosp r > 0 /\
     group_total WHO_region hosp_7d (reg_WHO_region r) dfg (reg_Total_hosp r) /\
     group_total WHO_region icu_7d (reg_WHO_region r) dfg (reg_Total_icu r) /\
     ICU_pct_float64 r =
       PrimFloat.mul
         (PrimFloat.div (Z2float (reg_Total_icu r))
                        (Z2float (reg_Total_hosp r)))
         (Z2float 100)) /\
  Sorted (fun a b => reg_Total_hosp a >= reg_Total_hosp b)
         (df_reg sort_values dfg) /\
  (exists dfg' r',
     In r' (df_reg sort_values dfg') /\
     PrimFloat.ltb (Z2float 100) (ICU_pct_float64 r') = true) /\
  (exists dfg' r', In r' (df_reg sort_values dfg') /\ ICU_pct_is_exact r').
Proof.
  split; [|split; [|split]].
  - intros r Hr. apply df_reg_In in Hr. destruct Hr as (s & Hs & Hpos & ->).
    destruct (groupby_WHO_region_sum_group_totals dfg s Hs) as [Hh Hi].
    simpl. repeat split; try assumption; lia.
  - apply StronglySorted_Sorted, df_reg_sorted.
  - exists icu_heavy_df. eexists. split.
    + unfold df_reg.
      replace (map with_ICU_pct _)
        with [with_ICU_pct (mk_sums "AMR" 10 20)] by reflexivity.
      rewrite (sort_values_singleton _ _ _ _ sort_ok). now left.
    + vm_compute. reflexivity.
  - exists quarter_df. eexists. split.
    + unfold df_reg.
      replace (map with_ICU_pct _)
        with [with_ICU_pct (mk_sums "EUR" 200 50)] by reflexivity.
      rewrite (sort_values_singleton _ _ _ _ sort_ok). now left.
    + eexists. split; [vm_compute; reflexivity|]. vm_compute. reflexivity.
Qed.

(** C8, as the code has it. Unrecognized WHO regions: a row whose region
    is missing or is none of the six codes matches no regional scope
    filter, so it is in no regional country view, while it still
    contributes to the global views: it is in the global scope, it is
    counted in the two global totals and in the daily series row of its
    date (the daily totals are those of the other rows plus its values),
    and the peaks, of the cards and of the overview, are at least the
    daily totals of its date.  In the regional summary it is left out only
    when its region is missing; a region outside the six codes has a row
    of its own there exactly when its 7-day hospitalization total is
    positive. *)
Theorem unrecognized_region (l1 l2 : DataFrame) (r : Row) (window : Window) :
  let dfg := l1 ++ r :: l2 in
  (forall g, WHO_region r = Some g -> ~ In g region_codes) ->
  (forall view_mode,
     region_map view_mode <> None ->
     ~ In r (df_scope dfg (region_map view_mode))) /\
  In r (df_scope dfg (region_map Top_5_countries_globally)) /\
  total_hosp_hist dfg = total_hosp_hist (l1 ++ l2) + Zsum (dropna [hosp_7d r]) /\
  total_icu_hist dfg = total_icu_hist (l1 ++ l2) + Zsum (dropna [icu_7d r]) /\
  (forall d, Date_reported r = Some d ->
     exists t, In t (values (df_ts sort_values dfg window)) /\
       ts_Date_reported t = d /\
       In r (get_group Z.eqb Date_reported d dfg) /\
       ts_hosp t = Zsum (dropna (map (col (hosp_col window))
                                     (get_group Z.eqb Date_reported d dfg))) /\
       ts_icu t = Zsum (dropna (map (col (icu_col window))
                                    (get_group Z.eqb Date_reported d dfg))) /\
       (exists rest_hosp rest_icu,
          group_total Date_reported (col (hosp_col window)) d (l1 ++ l2)
                      rest_hosp /\
          ts_hosp t = rest_hosp + Zsum (dropna [col (hosp_col window) r]) /\
          group_total Date_reported (col (icu_col window)) d (l1 ++ l2)
                      rest_icu /\
          ts_icu t = rest_icu + Zsum (dropna [col (icu_col window) r])) /\
       (exists ov vh vi,
          global_evolution sort_values dfg window = Some ov /\
          hosp_peak_value ov = Some vh /\
          peak_hosp (key_insights dfg window) = Some vh /\
          ts_hosp t <= vh /\
          icu_peak_value ov = Some vi /\
          peak_icu (key_insights dfg window) = Some vi /\
          ts_icu t <= vi)) /\
  (WHO_region r = None ->
     forall g, ~ In r (get_group String.eqb WHO_region g dfg)) /\
  (forall g, WHO_region r = Some g ->
     (In g (map reg_WHO_region (df_reg sort_values dfg)) <->
      Zsum (dropna (map hosp_7d (get_group String.eqb WHO_region g dfg))) > 0)).
Proof.
  intros dfg Hun.
  assert (Hin : In r dfg) by (apply in_or_app; right; now left).
  split; [|split; [|split; [|split; [|split; [|split]]]]].
  - intros view_mode Hreg Hr.
    destruct (region_map view_mode) as [g|] eqn:E; [|congruence].
    simpl in Hr. apply filter_In in Hr. destruct Hr as [_ Hr].
    unfold key_is in Hr. destruct (WHO_region r) as [g'|] eqn:Eg; [|discriminate].
    apply String.eqb_eq in Hr. subst g'.
    apply (Hun g eq_refl).
    destruct view_mode; simpl in E; try discriminate;
      injection E as <-; simpl; tauto.
  - exact Hin.
  - unfold total_hosp_hist, dfg.
    rewrite !map_app, !series_sum_app. simpl map.
    rewrite series_sum_cons. simpl col. lia.
  - unfold total_icu_hist, dfg.
    rewrite !map_app, !series_sum_app. simpl map.
    rewrite series_sum_cons. simpl col. lia.
  - intros d Hd.
    destruct (groupby_Date_reported_sum_daily_totals dfg (hosp_col window)
                (icu_col window)) as (_ & Hdates & Hsums & _).
    assert (Hex : exists r', In r' dfg /\ Date_reported r' = Some d) by eauto.
    apply Hdates in Hex. apply in_map_iff in Hex.
    destruct Hex as (t & Ht & Htin).
    assert (Hts : groupby_Date_reported_sum dfg (hosp_col window)
                    (icu_col window) <> []).
    { intros Hnil. rewrite Hnil in Htin. destruct Htin. }
    destruct (peaks_of_series dfg window Hts)
      as (ov & vh & vi & Hov & Hh1 & Hh2 & Hh3 & Hi1 & Hi2 & Hi3).
    rewrite df_ts_groupby in *.
    rewrite Forall_forall in Hh3, Hi3.
    destruct (Hsums t Htin) as [Hh Hi]. rewrite Ht in Hh, Hi.
    exists t. split; [exact Htin|]. split; [exact Ht|].
    split; [apply (get_group_In Z.eqb Z.eqb_eq); auto|].
    split; [exact Hh|]. split; [exact Hi|]. split.
    + exists (series_sum (map (col (hosp_col window))
                            (get_group Z.eqb Date_reported d (l1 ++ l2)))),
             (series_sum (map (col (icu_col window))
                            (get_group Z.eqb Date_reported d (l1 ++ l2)))).
      split; [apply (group_total_get_group Z.eqb Z.eqb_eq)|].
      split; [rewrite Hh; apply (group_sum_insert Z.eqb Z.eqb_eq); exact Hd|].
      split; [apply (group_total_get_group Z.eqb Z.eqb_eq)|].
      rewrite Hi. apply (group_sum_insert Z.eqb Z.eqb_eq). exact Hd.
    + exists ov, vh, vi. repeat split; auto.
  - intros Hnone g Hr.
    apply (get_group_In String.eqb String.eqb_eq) in Hr. destruct Hr. congruence.
  - intros g Hg. split.
    + intros Hgin. apply df_reg_regions in Hgin. apply Hgin.
    + intros Hpos. apply df_reg_regions. split; [eauto | exact Hpos].
Qed.

(** C9. Empty-result handling: with an empty date-filtered subset the run
    stops at the warning and produces no view at all.  Otherwise the run
    renders the page: the cards, the overview and the regional summary
    are computed from the filtered subset whatever the country tab does,
    and the country tab alone shows a warning when its scope is empty or
    when the ranking names no country, and its chart otherwise. *)
Theorem empty_result_handling (df : DataFrame) (window : Window)
  (date_range : option (Z * Z)) (view_mode : ViewMode)
  (metric_choice : MetricChoice) :
  let dfg := df_global df (fst (date_bounds df date_range))
                          (snd (date_bounds df date_range)) in
  let run := app sort_values df window date_range view_mode metric_choice in
  let dfs := df_scope dfg (region_map view_mode) in
  (dfg = [] -> run = Stopped) /\
  (dfg <> [] ->
   exists ov tab,
     global_evolution sort_values dfg window = Some ov /\
     run = Rendered (mkPage (key_insights dfg window) ov tab
                            (df_reg sort_values dfg)) /\
     (dfs = [] -> tab = Warning_no_data_for_region) /\
     (dfs <> [] -> top_countries sort_values dfs = [] ->
      tab = Warning_no_countries_found) /\
     (dfs <> [] -> top_countries sort_values dfs <> [] ->
      tab = Country_chart (y_col window metric_choice)
              (top_countries sort_values dfs)
              (df_country_ts sort_values dfs (top_countries sort_values dfs)))).
Proof.
  intros dfg run dfs. split.
  - apply app_stopped.
  - intros Hne.
    destruct (app_rendered df window date_range view_mode metric_choice Hne)
      as (ov & Hov & Hrun).
    exists ov, (country_tab sort_values dfg window view_mode metric_choice).
    split; [exact Hov|]. split; [exact Hrun|].
    unfold country_tab. fold dfs.
    destruct dfs as [|r1 dfs1]; [repeat split; congruence|].
    destruct (top_countries sort_values (r1 :: dfs1)) as [|c top];
      repeat split; congruence.
Qed.

End PipelineFacts.


(** ** The claims on the sample tables *)

Example sample_dfg_rows : sample_dfg = sample_rows ++ [row_F].
Proof. reflexivity. Qed.

Example scenario_A_series :
  values (df_ts stable_sort_values scenario_A Weekly) =
  [mk_ts 18628 100 10; mk_ts 18635 150 20].
Proof. reflexivity. Qed.

Example sample_ranking :
  map rk_Country (df_rank stable_sort_values sample_dfg) =
  ["C"; "F"; "E"; "D"; "A"; "B"]%string.
Proof. reflexivity. Qed.

Example sample_out_of_range :
  app stable_sort_values sample_df Weekly (Some (1, 2))
      Top_5_countries_globally Hospitalizations = Stopped.
Proof. reflexivity. Qed.

Lemma peak_correct_witness :
  sort_values_spec stable_sort_values /\
  df_global scenario_A (Some 18628) (Some 18635) <> [] /\
  exists ov,
    global_evolution stable_sort_values
      (df_global scenario_A (Some 18628) (Some 18635)) Weekly = Some ov /\
    ov_df_ts ov =
      df_ts stable_sort_values
            (df_global scenario_A (Some 18628) (Some 18635)) Weekly /\
    values (ov_df_ts ov) <> [] /\
    is_peak ts_hosp (values (ov_df_ts ov))
            (hosp_peak_value ov) (hosp_peak_date ov) /\
    is_peak ts_icu (values (ov_df_ts ov))
            (icu_peak_value ov) (icu_peak_date ov).
Proof.
  split; [exact stable_sort_values_spec|].
  assert (H : df_global scenario_A (Some 18628) (Some 18635) <> [])
    by (vm_compute; discriminate).
  split; [exact H|].
  exact (peak_correct stable_sort_values stable_sort_values_spec scenario_A
           (Some 18628) (Some 18635) Weekly H).
Defined.

Lemma daily_totals_correct_witness :
  sort_values_spec stable_sort_values /\
  is_daily_totals sample_dfg (hosp_col Weekly) (icu_col Weekly)
                  (values (df_ts stable_sort_values sample_dfg Weekly)) /\
  (forall t, In t (values (df_ts stable_sort_values sample_dfg Weekly)) ->
     group_total Date_reported hosp_7d (ts_Date_reported t) sample_dfg
                 (ts_hosp t) /\
     group_total Date_reported icu_7d (ts_Date_reported t) sample_dfg
                 (ts_icu t)) /\
  df_ts_cards sample_dfg Weekly = df_ts stable_sort_values sample_dfg Weekly.
Proof.
  split; [exact stable_sort_values_spec|].
  exact (daily_totals_correct stable_sort_values stable_sort_values_spec
           sample_df (Some 18628) (Some 18642) Weekly).
Defined.

Lemma ranking_sorted_descending_witness :
  sort_values_spec stable_sort_values /\
  Sorted (fun a b => Total_hosp a >= Total_hosp b)
         (df_rank stable_sort_values sample_dfg) /\
  Permutation (groupby_Country_sum sample_dfg)
              (df_rank stable_sort_values sample_dfg) /\
  StronglySorted (fun a b => String.ltb (rk_Country a) (rk_Country b) = true)
                 (groupby_Country_sum sample_dfg) /\
  (forall dfs', Permutation sample_dfg dfs' ->
                df_rank stable_sort_values dfs' =
                df_rank stable_sort_values sample_dfg).
Proof.
  split; [exact stable_sort_values_spec|].
  exact (ranking_sorted_descending stable_sort_values stable_sort_values_spec
           sample_dfg).
Defined.

(** C4, as stated, fails: "B" comes first in the table, "A" and "B" have
    equal totals, and the ranking lists "A" before "B". *)
Lemma ranking_ties_not_first_seen :
  ~ ties_keep_first_seen_order (df_rank stable_sort_values tie_df) tie_df.
Proof.
  intros H.
  destruct (H [] (mk_rank "A" 5) [] (mk_rank "B" 5) [] eq_refl eq_refl)
    as (i & j & Hi & Hj & Hlt).
  vm_compute in Hi, Hj. injection Hi as <-. injection Hj as <-. lia.
Qed.

(** Whatever the sort does with equal totals, it cannot follow the order
    of the table: [tie_df] and its reversal have the same ranking. *)
Lemma no_sort_keeps_first_seen_order (sort_values : sort_fun) :
  sort_values_spec sort_values ->
  ~ (ties_keep_first_seen_order (df_rank sort_values tie_df) tie_df /\
     ties_keep_first_seen_order (df_rank sort_values (rev tie_df))
                                (rev tie_df)).
Proof.
  intros Hs [H1 H2].
  assert (Hp : Permutation [mk_rank "A" 5; mk_rank "B" 5]
                           (df_rank sort_values tie_df))
    by apply (sort_values_perm _ Hs).
  change (df_rank sort_values (rev tie_df))
    with (df_rank sort_values tie_df) in H2.
  apply Permutation_length_2_inv in Hp.
  destruct Hp as [Hp|Hp]; rewrite Hp in H1, H2.
  - destruct (H1 [] _ [] _ [] eq_refl eq_refl) as (i & j & Hi & Hj & Hlt).
    vm_compute in Hi, Hj. injection Hi as <-. injection Hj as <-. lia.
  - destruct (H2 [] _ [] _ [] eq_refl eq_refl) as (i & j & Hi & Hj & Hlt).
    vm_compute in Hi, Hj. injection Hi as <-. injection Hj as <-. lia.
Qed.



Example sample_WPR_top :
  top_countries stable_sort_values (df_scope sample_dfg (Some "WPR"%string)) =
  ["E"; "D"]%string.
Proof. reflexivity. Qed.

Example scenario_B :
  Forall2 Qeq
    (map ICU_pct
       (df_reg stable_sort_values
               [obs 18628 "X" "EUR" (Some 200) (Some 50) None None]))
    [25%Q].
Proof. repeat constructor. Qed.

Lemma regional_icu_share_witness :
  sort_values_spec stable_sort_values /\
  (forall r, In r (df_reg stable_sort_values sample_dfg) ->
     reg_Total_hosp r > 0 /\
     group_total WHO_region hosp_7d (reg_WHO_region r) sample_dfg
                 (reg_Total_hosp r) /\
     group_total WHO_region icu_7d (reg_WHO_region r) sample_dfg
                 (reg_Total_icu r) /\
     ICU_pct_float64 r =
       PrimFloat.mul
         (PrimFloat.div (Z2float (reg_Total_icu r))
                        (Z2float (reg_Total_hosp r)))
         (Z2float 100)) /\
  Sorted (fun a b => reg_Total_hosp a >= reg_Total_hosp b)
         (df_reg stable_sort_values sample_dfg) /\
  (exists dfg' r',
     In r' (df_reg stable_sort_values dfg') /\
     PrimFloat.ltb (Z2float 100) (ICU_pct_float64 r') = true) /\
  (exists dfg' r',
     In r' (df_reg stable_sort_values dfg') /\ ICU_pct_is_exact r').
Proof.
  split; [exact stable_sort_values_spec|].
  exact (regional_icu_share stable_sort_values stable_sort_values_spec
           sample_dfg).
Defined.

(** C7, as stated, fails: with 3 ICU admissions for 9 hospitalizations the
    column holds the binary64 number nearest to the rounded quotient times
    100, which is not 100/3. *)
Lemma icu_share_not_exact :
  ~ (forall r, In r (df_reg stable_sort_values third_df) ->
               ICU_pct_is_exact r).
Proof.
  intros H.
  destruct (H (with_ICU_pct (mk_sums "AMR" 9 3)) (or_introl eq_refl))
    as (q & Hq & Heq).
  vm_compute in Hq. injection Hq as <-. vm_compute in Heq. discriminate Heq.
Qed.

Lemma row_F_unrecognized :
  forall g, WHO_region row_F = Some g -> ~ In g region_codes.
Proof.
  intros g Hg. injection Hg as <-. simpl. intuition discriminate.
Qed.

Lemma unrecognized_region_witness :
  sort_values_spec stable_sort_values /\
  (forall g, WHO_region row_F = Some g -> ~ In g region_codes) /\
  (forall view_mode,
     region_map view_mode <> None ->
     ~ In row_F (df_scope (sample_rows ++ row_F :: []) (region_map view_mode))) /\
  In row_F (df_scope (sample_rows ++ row_F :: [])
                     (region_map Top_5_countries_globally)) /\
  total_hosp_hist (sample_rows ++ row_F :: []) =
    total_hosp_hist (sample_rows ++ []) + Zsum (dropna [hosp_7d row_F]) /\
  total_icu_hist (sample_rows ++ row_F :: []) =
    total_icu_hist (sample_rows ++ []) + Zsum (dropna [icu_7d row_F]) /\
  (forall d, Date_reported row_F = Some d ->
     exists t,
       In t (values (df_ts stable_sort_values (sample_rows ++ row_F :: [])
                           Monthly)) /\
       ts_Date_reported t = d /\
       In row_F (get_group Z.eqb Date_reported d (sample_rows ++ row_F :: [])) /\
       ts_hosp t =
         Zsum (dropna (map (col (hosp_col Monthly))
                 (get_group Z.eqb Date_reported d (sample_rows ++ row_F :: [])))) /\
       ts_icu t =
         Zsum (dropna (map (col (icu_col Monthly))
                 (get_group Z.eqb Date_reported d (sample_rows ++ row_F :: [])))) /\
       (exists rest_hosp rest_icu,
          group_total Date_reported (col (hosp_col Monthly)) d
                      (sample_rows ++ []) rest_hosp /\
          ts_hosp t = rest_hosp + Zsum (dropna [col (hosp_col Monthly) row_F]) /\
          group_total Date_reported (col (icu_col Monthly)) d
                      (sample_rows ++ []) rest_icu /\
          ts_icu t = rest_icu + Zsum (dropna [col (icu_col Monthly) row_F])) /\
       (exists ov vh vi,
          global_evolution stable_sort_values (sample_rows ++ row_F :: [])
                           Monthly = Some ov /\
          hosp_peak_value ov = Some vh /\
          peak_hosp (key_insights (sample_rows ++ row_F :: []) Monthly)
            = Some vh /\
          ts_hosp t <= vh /\
          icu_peak_value ov = Some vi /\
          peak_icu (key_insights (sample_rows ++ row_F :: []) Monthly)
            = Some vi /\
          ts_icu t <= vi)) /\
  (WHO_region row_F = None ->
     forall g, ~ In row_F (get_group String.eqb WHO_region g
                                     (sample_rows ++ row_F :: []))) /\
  (forall g, WHO_region row_F = Some g ->
     (In g (map reg_WHO_region
              (df_reg stable_sort_values (sample_rows ++ row_F :: []))) <->
      Zsum (dropna (map hosp_7d
              (get_group String.eqb WHO_region g
                         (sample_rows ++ row_F :: [])))) > 0)).
Proof.
  split; [exact stable_sort_values_spec|].
  split; [exact row_F_unrecognized|].
  exact (unrecognized_region stable_sort_values stable_sort_values_spec
           sample_rows [] row_F Monthly row_F_unrecognized).
Defined.

(** C8, as stated, fails: the region of [row_F] is none of the six codes,
    [row_F] is in the filtered subset, and the regional summary has a row
    for its region. *)
Lemma unrecognized_region_in_summary :
  In row_F sample_dfg /\
  (forall g, WHO_region row_F = Some g -> ~ In g region_codes) /\
  ~ excluded_from_regional_summary (df_reg stable_sort_values sample_dfg)
                                   row_F.
Proof.
  split; [vm_compute; tauto|]. split; [exact row_F_unrecognized|].
  intros H. apply (H "OTHER"%string eq_refl). vm_compute. tauto.
Qed.

Lemma empty_result_handling_witness :
  sort_values_spec stable_sort_values /\
  exists ov,
    app stable_sort_values sample_df Weekly (Some (18628, 18642))
        Top_5_countries_AFR Hospitalizations =
    Rendered (mkPage (key_insights sample_dfg Weekly) ov
                     Warning_no_data_for_region
                     (df_reg stable_sort_values sample_dfg)).
Proof.
  split; [exact stable_sort_values_spec|].
  destruct (empty_result_handling stable_sort_values stable_sort_values_spec
              sample_df Weekly (Some (18628, 18642)) Top_5_countries_AFR
              Hospitalizations) as [_ H].
  destruct H as (ov & tab & _ & Hrun & Hscope & _).
  - vm_compute. discriminate.
  - exists ov. rewrite (Hscope eq_refl) in Hrun. exact Hrun.
Defined.

(** * Further properties of the script *)

(** ** The date range *)

Lemma Zmin_list_spec (xs : list Z) :
  match Zmin_list xs with
  | None => xs = []
  | Some m => In m xs /\ Forall (fun x => m <= x) xs
  end.
Proof.
  induction xs as [|x xs IH]; simpl; [reflexivity|].
  destruct (Zmin_list xs) as [m|].
  - destruct IH as [Hin Hall]. split.
    + destruct (Z.min_spec x m) as [[_ ->]|[_ ->]]; auto.
    + constructor; [lia|].
      eapply Forall_impl; [|exact Hall]. simpl. intros; lia.
  - subst xs. split; [now left|]. repeat constructor. lia.
Qed.

Lemma filter_none {A : Type} (f : A -> bool) (l : list A) :
  (forall a, In a l -> f a = false) -> filter f l = [].
Proof.
  induction l as [|a l IH]; simpl; intros H; [reflexivity|].
  rewrite (H a (or_introl eq_refl)). apply IH. intros b Hb. apply H. now right.
Qed.

Lemma series_sum_filter_le (f : Row -> option Z) (p q : Row -> bool)
  (df : DataFrame) :
  (forall r, In r df -> p r = true -> q r = true) ->
  (forall r v, In r df -> f r = Some v -> 0 <= v) ->
  series_sum (map f (filter p df)) <= series_sum (map f (filter q df)).
Proof.
  induction df as [|r df IH]; intros Hpq Hpos; simpl; [lia|].
  assert (IH' : series_sum (map f (filter p df)) <=
                series_sum (map f (filter q df))).
  { apply IH; intros; [apply Hpq | eapply Hpos]; simpl; eauto. }
  assert (Hr : 0 <= Zsum (dropna [f r])).
  { destruct (f r) as [v|] eqn:E; simpl; [|lia].
    specialize (Hpos r v (or_introl eq_refl) E). lia. }
  specialize (Hpq r (or_introl eq_refl)).
  destruct (p r), (q r); simpl; rewrite ?series_sum_cons;
    try (specialize (Hpq eq_refl); discriminate); lia.
Qed.

(** ** Lists *)

Lemma Zsum_Permutation (xs ys : list Z) :
  Permutation xs ys -> Zsum xs = Zsum ys.
Proof. induction 1; simpl; lia. Qed.

Lemma NoDup_map_In_inj {A B : Type} (f : A -> B) (l : list A) (x y : A) :
  NoDup (map f l) -> In x l -> In y l -> f x = f y -> x = y.
Proof.
  induction l as [|a l IH]; simpl; intros Hnd Hx Hy Hf; [destruct Hx|].
  inversion Hnd as [|? ? Hnotin Hnd']; subst.
  destruct Hx as [->|Hx], Hy as [->|Hy]; auto.
  - exfalso. apply Hnotin. rewrite Hf. now apply in_map.
  - exfalso. apply Hnotin. rewrite <- Hf. now apply in_map.
Qed.

Lemma StronglySorted_app_cross {A : Type} (R : A -> A -> Prop)
  (l1 l2 : list A) (a b : A) :
  StronglySorted R (l1 ++ l2) -> In a l1 -> In b l2 -> R a b.
Proof.
  induction l1 as [|c l1 IH]; simpl; intros Hs Ha Hb; [destruct Ha|].
  inversion Hs as [|? ? Hs' Hall]; subst.
  destruct Ha as [->|Ha]; [|now apply IH].
  rewrite Forall_forall in Hall. apply Hall, in_or_app. now right.
Qed.

Lemma In_firstn {A : Type} (n : nat) (l : list A) (x : A) :
  In x (firstn n l) -> In x l.
Proof.
  intros H. rewrite <- (firstn_skipn n l). apply in_or_app. now left.
Qed.

Lemma firstn_eq_nil {A : Type} (n : nat) (l : list A) :
  firstn (S n) l = [] <-> l = [].
Proof. destruct l; simpl; split; congruence. Qed.

(** ** Sums over groups *)

Lemma Zsum_map_add {K : Type} (h1 h2 : K -> Z) (ks : list K) :
  Zsum (map (fun k => h1 k + h2 k) ks) = Zsum (map h1 ks) + Zsum (map h2 ks).
Proof. induction ks as [|k ks IH]; simpl; lia. Qed.

Lemma Zsum_map_zero {K : Type} (ks : list K) :
  Zsum (map (fun _ => 0) ks) = 0.
Proof. induction ks as [|k ks IH]; simpl; lia. Qed.

Lemma Zsum_nonneg (xs : list Z) :
  Forall (fun x => 0 <= x) xs -> 0 <= Zsum xs.
Proof. induction 1; simpl; lia. Qed.

Lemma Zsum_ge_each (xs : list Z) (x : Z) :
  Forall (fun y => 0 <= y) xs -> In x xs -> x <= Zsum xs.
Proof.
  induction 1 as [|y ys Hy Hall IH]; simpl; intros Hin; [destruct Hin|].
  pose proof (Zsum_nonneg ys Hall).
  destruct Hin as [->|Hin]; [lia|]. specialize (IH Hin). lia.
Qed.

Section GroupSums.
Context {K : Type}.
Variable eqb : K -> K -> bool.
Hypothesis eqb_eq : forall a b, eqb a b = true <-> a = b.

Lemma Zsum_indicator_out (k0 : K) (v : Z) (ks : list K) :
  ~ In k0 ks -> Zsum (map (fun k => if eqb k0 k then v else 0) ks) = 0.
Proof.
  induction ks as [|k ks IH]; simpl; intros Hout; [reflexivity|].
  destruct (eqb k0 k) eqn:E.
  - apply eqb_eq in E. subst k. exfalso. apply Hout. now left.
  - rewrite IH; [reflexivity|]. intros H. apply Hout. now right.
Qed.

Lemma Zsum_indicator (k0 : K) (v : Z) (ks : list K) :
  NoDup ks -> In k0 ks ->
  Zsum (map (fun k => if eqb k0 k then v else 0) ks) = v.
Proof.
  induction 1 as [|k ks Hnotin Hnd IH]; simpl; intros Hin; [destruct Hin|].
  destruct (eqb k0 k) eqn:E.
  - apply eqb_eq in E. subst k. rewrite Zsum_indicator_out by exact Hnotin. lia.
  - destruct Hin as [->|Hin].
    + assert (eqb k0 k0 = true) by now apply eqb_eq. congruence.
    + rewrite (IH Hin). lia.
Qed.

(** The sums of the groups add up to the sum over the rows that have a
    key: no row is counted twice, and only rows without a key are left
    out. *)
Lemma group_sums_total (by_ : Row -> option K) (f : Row -> option Z)
  (ks : list K) (df : DataFrame) :
  NoDup ks ->
  (forall r k, In r df -> by_ r = Some k -> In k ks) ->
  Zsum (map (fun k => series_sum (map f (get_group eqb by_ k df))) ks) =
  series_sum (map f (filter (fun r => notna (by_ r)) df)).
Proof.
  intros Hnd. induction df as [|r df IH]; intros Hks.
  - simpl. change (series_sum []) with 0. apply Zsum_map_zero.
  - assert (IH' := IH (fun r' k Hr' => Hks r' k (or_intror Hr'))).
    set (v := Zsum (dropna [f r])).
    rewrite (map_ext
               (fun k => series_sum (map f (get_group eqb by_ k (r :: df))))
               (fun k => (if key_is eqb k (by_ r) then v else 0)
                         + series_sum (map f (get_group eqb by_ k df)))).
    2:{ intros k. unfold get_group. cbn [filter].
        destruct (key_is eqb k (by_ r)); cbn [map];
          [apply series_sum_cons | reflexivity]. }
    rewrite Zsum_map_add, IH'. cbn [filter]. unfold key_is.
    destruct (by_ r) as [k0|] eqn:E; cbn [notna map].
    + rewrite series_sum_cons. fold v.
      rewrite (Zsum_indicator k0 v ks Hnd); [reflexivity|].
      apply (Hks r k0); [now left | exact E].
    + rewrite Zsum_map_zero. reflexivity.
Qed.

End GroupSums.

Lemma df_global_dated (df : DataFrame) (start_date end_date : option Z) :
  filter (fun r => notna (Date_reported r)) (df_global df start_date end_date) =
  df_global df start_date end_date.
Proof.
  apply forallb_filter_id, forallb_forall. intros r Hr.
  apply df_global_In in Hr. destruct Hr as (_ & d & _ & _ & -> & _).
  reflexivity.
Qed.

(** The values of one column of the daily series add up to the sum of
    that column over the rows that have a date. *)
Lemma groupby_Date_reported_sum_total (dfg : DataFrame) (hc ic : metric_col) :
  Zsum (map ts_hosp (values (groupby_Date_reported_sum dfg hc ic))) =
    series_sum (map (col hc)
                    (filter (fun r => notna (Date_reported r)) dfg)) /\
  Zsum (map ts_icu (values (groupby_Date_reported_sum dfg hc ic))) =
    series_sum (map (col ic)
                    (filter (fun r => notna (Date_reported r)) dfg)).
Proof.
  rewrite groupby_Date_reported_sum_values, !map_map. simpl.
  assert (Hnd : NoDup (group_keys Z.eqb Z.ltb (map Date_reported dfg))).
  { apply (strictly_sorted_NoDup Z.ltb Z.ltb_irrefl).
    apply (group_keys_sorted Z.eqb Z.ltb Z.eqb_eq Z_ltb_trans Z_ltb_connected). }
  assert (Hks : forall r k, In r dfg -> Date_reported r = Some k ->
                  In k (group_keys Z.eqb Z.ltb (map Date_reported dfg))).
  { intros r k Hr Hk. apply date_keys_In. eauto. }
  split; apply (group_sums_total Z.eqb Z.eqb_eq); assumption.
Qed.

Lemma series_sum_nonneg (xs : list (option Z)) :
  (forall v, In (Some v) xs -> 0 <= v) -> 0 <= series_sum xs.
Proof.
  intros H. apply Zsum_nonneg, Forall_forall. intros v Hv.
  apply H. now apply dropna_In.
Qed.

Lemma nonneg_df_global (c : metric_col) (df : DataFrame)
  (start_date end_date : option Z) :
  nonneg c df -> nonneg c (df_global df start_date end_date).
Proof.
  intros H r v Hr. apply (H r v). now apply df_global_In in Hr.
Qed.

Lemma nonneg_group_sum {K : Type} (eqb : K -> K -> bool)
  (by_ : Row -> option K) (k : K) (c : metric_col) (df : DataFrame) :
  nonneg c df -> 0 <= series_sum (map (col c) (get_group eqb by_ k df)).
Proof.
  intros H. apply series_sum_nonneg. intros v Hv.
  apply in_map_iff in Hv. destruct Hv as (r & Hr & Hin).
  apply filter_In in Hin. exact (H r v (proj1 Hin) Hr).
Qed.

(** The largest daily sum of a column of non-negative values is at most
    the sum of the column over the dated rows. *)
Lemma peak_le_total (dfg : DataFrame) (hc ic : metric_col) :
  nonneg hc dfg -> nonneg ic dfg ->
  filter (fun r => notna (Date_reported r)) dfg = dfg ->
  peak_card_number (peak_value ts_hosp (groupby_Date_reported_sum dfg hc ic))
    <= series_sum (map (col hc) dfg) /\
  peak_card_number (peak_value ts_icu (groupby_Date_reported_sum dfg hc ic))
    <= series_sum (map (col ic) dfg).
Proof.
  intros Hh Hi Hdated.
  destruct (groupby_Date_reported_sum_total dfg hc ic) as [Th Ti].
  rewrite Hdated in Th, Ti. rewrite <- Th, <- Ti. unfold peak_value.
  assert (Hposh : Forall (fun x => 0 <= x)
            (map ts_hosp (values (groupby_Date_reported_sum dfg hc ic)))).
  { rewrite groupby_Date_reported_sum_values, map_map. apply Forall_forall.
    intros x Hx. apply in_map_iff in Hx. destruct Hx as (d & <- & _). simpl.
    now apply nonneg_group_sum. }
  assert (Hposi : Forall (fun x => 0 <= x)
            (map ts_icu (values (groupby_Date_reported_sum dfg hc ic)))).
  { rewrite groupby_Date_reported_sum_values, map_map. apply Forall_forall.
    intros x Hx. apply in_map_iff in Hx. destruct Hx as (d & <- & _). simpl.
    now apply nonneg_group_sum. }
  split.
  - pose proof (Zmax_list_spec
                  (map ts_hosp (values (groupby_Date_reported_sum dfg hc ic))))
      as Hm.
    destruct (Zmax_list _) as [m|]; simpl.
    + apply Zsum_ge_each; [exact Hposh | apply Hm].
    + now apply Zsum_nonneg.
  - pose proof (Zmax_list_spec
                  (map ts_icu (values (groupby_Date_reported_sum dfg hc ic))))
      as Hm.
    destruct (Zmax_list _) as [m|]; simpl.
    + apply Zsum_ge_each; [exact Hposi | apply Hm].
    + now apply Zsum_nonneg.
Qed.

Lemma isin_In (top : list string) (c : option string) :
  isin top c = true <-> exists name, c = Some name /\ In name top.
Proof.
  unfold isin. destruct c as [name|].
  - rewrite existsb_exists. split.
    + intros (x & Hx & E). apply String.eqb_eq in E. subst x. eauto.
    + intros (n & E & Hn). injection E as <-. exists name.
      split; [exact Hn | apply String.eqb_refl].
  - split; [discriminate | intros (n & E & _); discriminate].
Qed.

Lemma df_scope_In (dfg : DataFrame) (target_region : option string) (r : Row) :
  In r (df_scope dfg target_region) <->
  In r dfg /\ forall reg, target_region = Some reg -> WHO_region r = Some reg.
Proof.
  destruct target_region as [reg|]; simpl.
  - rewrite filter_In. unfold key_is. split.
    + intros [Hin H]. split; [exact Hin|]. intros reg' E. injection E as <-.
      destruct (WHO_region r) as [g|]; [|discriminate].
      apply String.eqb_eq in H. now subst.
    + intros [Hin H]. split; [exact Hin|]. rewrite (H reg eq_refl).
      apply String.eqb_refl.
  - split; [intros H; split; [exact H | discriminate] | tauto].
Qed.


Lemma Zsum_filter_pos {A : Type} (h : A -> Z) (l : list A) :
  Zsum (map h l) <= Zsum (map h (filter (fun a => 0 <? h a) l)) /\
  (Forall (fun a => 0 <= h a) l ->
   Zsum (map h (filter (fun a => 0 <? h a) l)) = Zsum (map h l)).
Proof.
  induction l as [|a l [IH1 IH2]]; simpl; [split; [lia | reflexivity]|].
  split.
  - destruct (0 <? h a) eqn:E; simpl; [lia|]. apply Z.ltb_ge in E. lia.
  - intros Hall. inversion Hall as [|? ? Ha Hl]; subst. specialize (IH2 Hl).
    destruct (0 <? h a) eqn:E; simpl; [lia|]. apply Z.ltb_ge in E. lia.
Qed.

Lemma Zsum_filter_le {A : Type} (h : A -> Z) (f : A -> bool) (l : list A) :
  Forall (fun a => 0 <= h a) l ->
  Zsum (map h (filter f l)) <= Zsum (map h l).
Proof.
  induction 1 as [|a l Ha Hl IH]; simpl; [lia|].
  destruct (f a); simpl; lia.
Qed.

(** ** Row order *)

Lemma date_keys_Permutation (df df' : DataFrame) :
  Permutation df df' ->
  group_keys Z.eqb Z.ltb (map Date_reported df) =
  group_keys Z.eqb Z.ltb (map Date_reported df').
Proof.
  intros H.
  apply (group_keys_ext Z.eqb Z.ltb Z.eqb_eq Z.ltb_irrefl Z_ltb_trans
           Z_ltb_connected).
  intros k. split; apply Permutation_in; apply Permutation_map;
    [exact H | now apply Permutation_sym].
Qed.

Lemma groupby_Date_reported_sum_Permutation (dfg dfg' : DataFrame)
  (hc ic : metric_col) :
  Permutation dfg dfg' ->
  groupby_Date_reported_sum dfg hc ic = groupby_Date_reported_sum dfg' hc ic.
Proof.
  intros H. unfold groupby_Date_reported_sum.
  rewrite (date_keys_Permutation dfg dfg' H). f_equal.
  apply map_ext. intros d. simpl. f_equal; now apply group_sum_Permutation.
Qed.

Lemma groupby_WHO_region_sum_Permutation (dfg dfg' : DataFrame) :
  Permutation dfg dfg' ->
  groupby_WHO_region_sum dfg = groupby_WHO_region_sum dfg'.
Proof.
  intros H. unfold groupby_WHO_region_sum.
  rewrite (name_keys_Permutation WHO_region dfg dfg' H).
  apply map_ext. intros g. simpl. f_equal; now apply group_sum_Permutation.
Qed.

Lemma df_scope_Permutation (dfg dfg' : DataFrame)
  (target_region : option string) :
  Permutation dfg dfg' ->
  Permutation (df_scope dfg target_region) (df_scope dfg' target_region).
Proof.
  intros H. destruct target_region; simpl; [now apply Permutation_filter | exact H].
Qed.

Section MoreFacts.
Variable sort_values : sort_fun.
Hypothesis sort_ok : sort_values_spec sort_values.

(** X1. With anything but a two-date selection the bounds fall back to
    the span of the table, and the filtered subset is then exactly the
    rows whose date parsed, in their order. *)
Theorem default_range_keeps_dated_rows (df : DataFrame) :
  df_global df (fst (date_bounds df None)) (snd (date_bounds df None)) =
  filter (fun r => notna (Date_reported r)) df.
Proof.
  unfold df_global. apply filter_ext_in. intros r Hr. simpl.
  destruct (Date_reported r) as [d|] eqn:E; [|reflexivity].
  assert (Hd : In d (dropna (map Date_reported df))).
  { apply dropna_In. rewrite <- E. now apply in_map. }
  unfold min_date, max_date, series_min, series_max.
  pose proof (Zmin_list_spec (dropna (map Date_reported df))) as Hmin.
  pose proof (Zmax_list_spec (dropna (map Date_reported df))) as Hmax.
  destruct (Zmin_list _) as [m|]; [|rewrite Hmin in Hd; destruct Hd].
  destruct (Zmax_list _) as [M|]; [|rewrite Hmax in Hd; destruct Hd].
  destruct Hmin as [_ Hmin]. destruct Hmax as [_ Hmax].
  rewrite Forall_forall in Hmin, Hmax.
  specialize (Hmin d Hd). specialize (Hmax d Hd). simpl.
  apply andb_true_iff. rewrite !Z.leb_le. lia.
Qed.

(** X2. A range whose end precedes its start selects no row, and the run
    stops at the warning. *)
Theorem reversed_range_stops (df : DataFrame) (s e : Z) (window : Window)
  (view_mode : ViewMode) (metric_choice : MetricChoice) :
  e < s ->
  df_global df (Some s) (Some e) = [] /\
  app sort_values df window (Some (s, e)) view_mode metric_choice = Stopped.
Proof.
  intros Hlt.
  assert (H : df_global df (Some s) (Some e) = []).
  { apply filter_none. intros r _. unfold ts_ge, ts_le.
    destruct (Date_reported r) as [d|]; [|reflexivity].
    apply andb_false_iff. rewrite !Z.leb_gt. lia. }
  split; [exact H|]. now apply app_stopped.
Qed.

(** X3. Widening the date range keeps every row already selected, and
    when the 7-day values are non-negative it lowers neither total of the
    cards. *)
Theorem wider_range_keeps_more (df : DataFrame) (s e s' e' : Z) :
  s' <= s -> e <= e' ->
  (forall r, In r (df_global df (Some s) (Some e)) ->
             In r (df_global df (Some s') (Some e'))) /\
  (nonneg Covid_new_hospitalizations_last_7days df ->
   total_hosp_hist (df_global df (Some s) (Some e)) <=
   total_hosp_hist (df_global df (Some s') (Some e'))) /\
  (nonneg Covid_new_icu_admissions_last_7days df ->
   total_icu_hist (df_global df (Some s) (Some e)) <=
   total_icu_hist (df_global df (Some s') (Some e'))).
Proof.
  intros Hs He.
  assert (Himp : forall r : Row,
            ts_ge (Date_reported r) (Some s) && ts_le (Date_reported r) (Some e)
              = true ->
            ts_ge (Date_reported r) (Some s') && ts_le (Date_reported r) (Some e')
              = true).
  { intros r. unfold ts_ge, ts_le.
    destruct (Date_reported r) as [d|]; [|discriminate].
    rewrite !andb_true_iff, !Z.leb_le. lia. }
  split; [|split].
  - intros r Hr. unfold df_global in *. rewrite filter_In in *.
    destruct Hr as [Hin Hr]. split; [exact Hin | now apply Himp].
  - intros Hpos. unfold total_hosp_hist, df_global.
    apply series_sum_filter_le; [intros r _; apply Himp | exact Hpos].
  - intros Hpos. unfold total_icu_hist, df_global.
    apply series_sum_filter_le; [intros r _; apply Himp | exact Hpos].
Qed.

(** X4. Given the selection the date widget returned, the peak lookups
    never raise: with an empty filtered subset the run stops at the
    warning before them, and otherwise [idxmax] is taken on a non-empty
    series and [.loc] finds its label, so the run renders the page. *)
Theorem app_never_raises (df : DataFrame) (window : Window)
  (date_range : option (Z * Z)) (view_mode : ViewMode)
  (metric_choice : MetricChoice) :
  app sort_values df window date_range view_mode metric_choice <> Raised.
Proof.
  destruct (df_global df (fst (date_bounds df date_range))
                         (snd (date_bounds df date_range))) as [|r0 dfg0] eqn:E.
  - rewrite (app_stopped sort_values df window date_range view_mode
               metric_choice E). discriminate.
  - assert (Hne : df_global df (fst (date_bounds df date_range))
                            (snd (date_bounds df date_range)) <> [])
      by (rewrite E; discriminate).
    destruct (app_rendered sort_values sort_ok df window date_range view_mode
                metric_choice Hne) as (ov & _ & ->).
    discriminate.
Qed.

(** X5. On a non-empty filtered subset the two peak cards show the values
    of the two peak markers of the overview chart, and neither peak is
    missing: the cards never fall back to 0 for lack of a peak. *)
Theorem cards_peaks_match_overview (df : DataFrame)
  (start_date end_date : option Z) (window : Window) :
  let dfg := df_global df start_date end_date in
  dfg <> [] ->
  exists ov vh vi,
    global_evolution sort_values dfg window = Some ov /\
    peak_hosp (key_insights dfg window) = Some vh /\
    hosp_peak_value ov = Some vh /\
    peak_icu (key_insights dfg window) = Some vi /\
    icu_peak_value ov = Some vi.
Proof.
  intros dfg Hne.
  destruct (global_evolution_defined sort_values sort_ok df start_date
              end_date window Hne)
    as (ov & Hov & Hts & _ & (th & _ & Hh & _) & (ti & _ & Hi & _)).
  fold dfg in Hov, Hts.
  exists ov, (ts_hosp th), (ts_icu ti). split; [exact Hov|].
  unfold global_evolution in Hov.
  destruct (peak_date ts_hosp (df_ts sort_values dfg window)); [|discriminate].
  destruct (peak_date ts_icu (df_ts sort_values dfg window)); [|discriminate].
  injection Hov as <-. simpl in *.
  unfold key_insights, df_ts_cards. simpl.
  rewrite <- (df_ts_groupby sort_values sort_ok dfg window). auto.
Qed.

(** X6. The values of the daily series add up to the sum of the chosen
    window's column over the filtered subset, no row counted twice or
    left out; for the Weekly window they add up to the two totals of the
    cards. *)
Theorem daily_series_adds_up (df : DataFrame) (start_date end_date : option Z)
  (window : Window) :
  let dfg := df_global df start_date end_date in
  Zsum (map ts_hosp (values (df_ts sort_values dfg window))) =
    Zsum (dropna (map (col (hosp_col window)) dfg)) /\
  Zsum (map ts_icu (values (df_ts sort_values dfg window))) =
    Zsum (dropna (map (col (icu_col window)) dfg)) /\
  Zsum (map ts_hosp (values (df_ts sort_values dfg Weekly))) =
    card_total_hosp (key_insights dfg Weekly) /\
  Zsum (map ts_icu (values (df_ts sort_values dfg Weekly))) =
    card_total_icu (key_insights dfg Weekly).
Proof.
  intros dfg. rewrite !(df_ts_groupby sort_values sort_ok).
  destruct (groupby_Date_reported_sum_total dfg (hosp_col window)
              (icu_col window)) as [Hh Hi].
  destruct (groupby_Date_reported_sum_total dfg (hosp_col Weekly)
              (icu_col Weekly)) as [Hh7 Hi7].
  unfold dfg in *. rewrite df_global_dated in *.
  repeat split; assumption.
Qed.

(** X7. With non-negative 7-day values and the Weekly window, neither
    peak card exceeds the total card of its metric.  The Monthly window
    gives no such bound: the peaks then come from the 28-day columns, and
    on some table the peak is above the total. *)
Theorem weekly_peak_within_total (df : DataFrame)
  (start_date end_date : option Z) :
  let dfg := df_global df start_date end_date in
  nonneg Covid_new_hospitalizations_last_7days df ->
  nonneg Covid_new_icu_admissions_last_7days df ->
  peak_card_number (peak_hosp (key_insights dfg Weekly)) <=
    card_total_hosp (key_insights dfg Weekly) /\
  peak_card_number (peak_icu (key_insights dfg Weekly)) <=
    card_total_icu (key_insights dfg Weekly) /\
  (exists df',
     nonneg Covid_new_hospitalizations_last_28days df' /\
     card_total_hosp (key_insights df' Monthly) <
     peak_card_number (peak_hosp (key_insights df' Monthly))).
Proof.
  intros dfg Hh Hi.
  destruct (peak_le_total dfg Covid_new_hospitalizations_last_7days
              Covid_new_icu_admissions_last_7days) as [H1 H2].
  - now apply nonneg_df_global.
  - now apply nonneg_df_global.
  - apply df_global_dated.
  - split; [exact H1|]. split; [exact H2|].
    exists scenario_A. split; [|reflexivity].
    intros r v Hr Hv. simpl in Hr.
    destruct Hr as [<-|[<-|[]]]; simpl in Hv; injection Hv as <-; lia.
Qed.

Lemma top_countries_in_scope (dfs : DataFrame) (c : string) :
  In c (top_countries sort_values dfs) ->
  exists r, In r dfs /\ Country r = Some c.
Proof.
  intros Hc. unfold top_countries in Hc. apply In_firstn in Hc.
  apply (Permutation_in _
           (Permutation_sym (df_rank_countries sort_values sort_ok dfs))) in Hc.
  unfold distinct_countries in Hc. rewrite nodup_In, dropna_In in Hc.
  apply in_map_iff in Hc. destruct Hc as (r & Hr & Hin). eauto.
Qed.

(** X8. The top countries are distinct, each names a country of some
    row of the scope, and they are the top of the ranking: no country left
    out has a larger total than a country kept. *)
Theorem top_countries_are_the_top (dfs : DataFrame) :
  NoDup (top_countries sort_values dfs) /\
  (forall c, In c (top_countries sort_values dfs) ->
             exists r, In r dfs /\ Country r = Some c) /\
  (forall a b,
     In a (df_rank sort_values dfs) -> In b (df_rank sort_values dfs) ->
     In (rk_Country a) (top_countries sort_values dfs) ->
     ~ In (rk_Country b) (top_countries sort_values dfs) ->
     Total_hosp a >= Total_hosp b).
Proof.
  pose proof (df_rank_countries sort_values sort_ok dfs) as Hp.
  assert (Hnd : NoDup (map rk_Country (df_rank sort_values dfs))).
  { eapply Permutation_NoDup; [exact Hp|]. apply NoDup_nodup. }
  unfold top_countries. split; [|split].
  - rewrite <- (firstn_skipn 5 (map rk_Country (df_rank sort_values dfs))) in Hnd.
    now apply NoDup_app_remove_r in Hnd.
  - apply top_countries_in_scope.
  - intros a b Ha Hb Hatop Hbout. rewrite firstn_map in Hatop, Hbout.
    apply in_map_iff in Hatop. destruct Hatop as (a' & Hc & Ha').
    assert (a' = a).
    { apply (NoDup_map_In_inj rk_Country (df_rank sort_values dfs)); auto.
      now apply In_firstn in Ha'. }
    subst a'.
    rewrite <- (firstn_skipn 5 (df_rank sort_values dfs)) in Hb.
    apply in_app_or in Hb. destruct Hb as [Hb|Hb].
    + exfalso. apply Hbout. now apply in_map.
    + pose proof (df_rank_sorted sort_values sort_ok dfs) as Hs.
      rewrite <- (firstn_skipn 5 (df_rank sort_values dfs)) in Hs.
      exact (StronglySorted_app_cross _ _ _ a b Hs Ha' Hb).
Qed.

(** X9. The totals of the ranking add up to the sum of the 7-day
    hospitalization column over the rows of the scope that name a
    country; when every row names one, that is the scope's total. *)
Theorem ranking_totals_add_up (dfs : DataFrame) :
  Zsum (map Total_hosp (df_rank sort_values dfs)) =
    Zsum (dropna (map hosp_7d (filter (fun r => notna (Country r)) dfs))) /\
  ((forall r, In r dfs -> Country r <> None) ->
   Zsum (map Total_hosp (df_rank sort_values dfs)) = total_hosp_hist dfs).
Proof.
  assert (H : Zsum (map Total_hosp (df_rank sort_values dfs)) =
              Zsum (dropna (map hosp_7d
                              (filter (fun r => notna (Country r)) dfs)))).
  { rewrite <- (Zsum_Permutation _ _
                  (Permutation_map Total_hosp
                     (df_rank_Permutation sort_values sort_ok dfs))).
    unfold groupby_Country_sum. rewrite map_map. simpl.
    apply (group_sums_total String.eqb String.eqb_eq Country
             (col Covid_new_hospitalizations_last_7days)).
    - apply name_keys_NoDup.
    - intros r k Hr Hk. apply name_keys_In. eauto. }
  split; [exact H|]. intros Hall. rewrite H. unfold total_hosp_hist.
  rewrite forallb_filter_id; [reflexivity|].
  apply forallb_forall. intros r Hr. specialize (Hall r Hr).
  destruct (Country r); [reflexivity | congruence].
Qed.

(** X10. The two warnings of the country tab: "no data for this region"
    shows exactly when the scope has no row, and "no countries found"
    exactly when the scope has rows and none of them names a country. *)
Theorem country_tab_warnings (dfg : DataFrame) (window : Window)
  (view_mode : ViewMode) (metric_choice : MetricChoice) :
  let dfs := df_scope dfg (region_map view_mode) in
  let tab := country_tab sort_values dfg window view_mode metric_choice in
  (tab = Warning_no_data_for_region <-> dfs = []) /\
  (tab = Warning_no_countries_found <->
   dfs <> [] /\ forall r, In r dfs -> Country r = None).
Proof.
  intros dfs tab. subst tab. unfold country_tab. fold dfs.
  pose proof (df_rank_countries sort_values sort_ok dfs) as Hp.
  assert (Htop : top_countries sort_values dfs = [] <->
                 forall r, In r dfs -> Country r = None).
  { unfold top_countries. rewrite firstn_eq_nil. split.
    - intros Hnil r Hr. rewrite Hnil in Hp.
      apply Permutation_sym, Permutation_nil in Hp.
      destruct (Country r) as [c|] eqn:E; [|reflexivity].
      assert (Hc : In c (distinct_countries dfs)).
      { unfold distinct_countries. rewrite nodup_In, dropna_In, <- E.
        now apply in_map. }
      rewrite Hp in Hc. destruct Hc.
    - intros Hnone.
      destruct (map rk_Country (df_rank sort_values dfs)) as [|c l] eqn:E;
        [reflexivity|].
      assert (Hc : In c (distinct_countries dfs)).
      { apply (Permutation_in _ (Permutation_sym Hp)). now left. }
      unfold distinct_countries in Hc. rewrite nodup_In, dropna_In in Hc.
      apply in_map_iff in Hc. destruct Hc as (r & Hr & Hin).
      rewrite (Hnone r Hin) in Hr. discriminate. }
  destruct dfs as [|r1 dfs1] eqn:Edfs.
  - split; split; try reflexivity; try discriminate.
    intros [H _]. congruence.
  - destruct (top_countries sort_values (r1 :: dfs1)) as [|c top] eqn:Etop.
    + split; split; try discriminate; try reflexivity.
      intros _. split; [discriminate|]. now apply Htop.
    + split; split; try discriminate.
      intros [_ Hnone]. apply Htop in Hnone. discriminate.
Qed.

(** X11. The rows of the country chart are the rows of the scope whose
    country is one of the top countries, no other row and none missing;
    every top country has a row in the chart; in a regional view every
    row is of that region; the rows are in ascending date order. *)
Theorem country_chart_rows (dfg : DataFrame) (target_region : option string) :
  let dfs := df_scope dfg target_region in
  let top := top_countries sort_values dfs in
  let rows := df_country_ts sort_values dfs top in
  (forall r, In r rows <->
             In r dfs /\ exists c, Country r = Some c /\ In c top) /\
  (forall c, In c top -> exists r, In r rows /\ Country r = Some c) /\
  (forall reg, target_region = Some reg ->
               forall r, In r rows -> WHO_region r = Some reg) /\
  StronglySorted (fun a b => key_le true (Date_reported a) (Date_reported b))
                 rows.
Proof.
  intros dfs top rows.
  assert (Hp : Permutation (filter (fun r => isin top (Country r)) dfs) rows)
    by apply (sort_values_perm _ sort_ok).
  assert (Hin : forall r, In r rows <->
                  In r dfs /\ exists c, Country r = Some c /\ In c top).
  { intros r. split.
    - intros Hr. apply (Permutation_in _ (Permutation_sym Hp)) in Hr.
      apply filter_In in Hr. now rewrite isin_In in Hr.
    - intros Hr. apply (Permutation_in _ Hp), filter_In.
      now rewrite isin_In. }
  split; [exact Hin|]. split; [|split].
  - intros c Hc.
    destruct (top_countries_in_scope dfs c Hc) as (r & Hr & Hcr).
    exists r. split; [|exact Hcr]. apply Hin. eauto.
  - intros reg -> r Hr. apply Hin in Hr. destruct Hr as [Hr _].
    apply df_scope_In in Hr. now apply Hr.
  - apply (sort_values_sorted _ sort_ok).
Qed.


(** X13. The regional summary has one row per region, and no more than
    six rows when every region named in the table is one of the six
    codes. *)
Theorem regional_summary_size (dfg : DataFrame) :
  NoDup (map reg_WHO_region (df_reg sort_values dfg)) /\
  ((forall r g, In r dfg -> WHO_region r = Some g -> In g region_codes) ->
   (List.length (df_reg sort_values dfg) <= 6)%nat).
Proof.
  pose proof (df_reg_NoDup sort_values sort_ok dfg) as Hnd.
  split; [exact Hnd|]. intros Hcodes.
  rewrite <- (length_map reg_WHO_region).
  change 6%nat with (List.length region_codes).
  apply NoDup_incl_length; [exact Hnd|].
  intros g Hg. apply (df_reg_regions sort_values sort_ok) in Hg.
  destruct Hg as [(r & Hr & Hg) _]. exact (Hcodes r g Hr Hg).
Qed.

(** X14. The hospitalization totals of the regional summary add up to at
    least the 7-day hospitalization sum over the rows that name a region,
    and to exactly that sum when the values are non-negative.  The ICU
    totals add up to at most the 7-day ICU sum over those rows when the
    ICU values are non-negative: the ICU admissions of a region dropped
    for having no hospitalization are not shown. *)
Theorem regional_totals_add_up (dfg : DataFrame) :
  let named := filter (fun r => notna (WHO_region r)) dfg in
  Zsum (dropna (map hosp_7d named)) <=
    Zsum (map reg_Total_hosp (df_reg sort_values dfg)) /\
  (nonneg Covid_new_hospitalizations_last_7days dfg ->
   Zsum (map reg_Total_hosp (df_reg sort_values dfg)) =
   Zsum (dropna (map hosp_7d named))) /\
  (nonneg Covid_new_icu_admissions_last_7days dfg ->
   Zsum (map reg_Total_icu (df_reg sort_values dfg)) <=
   Zsum (dropna (map icu_7d named))).
Proof.
  intros named.
  set (kept := filter (fun g => 0 <? g_Total_hosp g)
                      (groupby_WHO_region_sum dfg)).
  assert (Hh : Zsum (map reg_Total_hosp (df_reg sort_values dfg)) =
               Zsum (map g_Total_hosp kept)).
  { rewrite <- (Zsum_Permutation _ _
                  (Permutation_map reg_Total_hosp
                     (df_reg_Permutation sort_values sort_ok dfg))).
    now rewrite map_map. }
  assert (Hi : Zsum (map reg_Total_icu (df_reg sort_values dfg)) =
               Zsum (map g_Total_icu kept)).
  { rewrite <- (Zsum_Permutation _ _
                  (Permutation_map reg_Total_icu
                     (df_reg_Permutation sort_values sort_ok dfg))).
    now rewrite map_map. }
  assert (Hks : forall r k, In r dfg -> WHO_region r = Some k ->
                  In k (group_keys String.eqb String.ltb (map WHO_region dfg))).
  { intros r k Hr Hk. apply name_keys_In. eauto. }
  assert (Th : Zsum (map g_Total_hosp (groupby_WHO_region_sum dfg)) =
               Zsum (dropna (map hosp_7d named))).
  { unfold groupby_WHO_region_sum. rewrite map_map. simpl.
    apply (group_sums_total String.eqb String.eqb_eq WHO_region
             (col Covid_new_hospitalizations_last_7days));
      [apply name_keys_NoDup | exact Hks]. }
  assert (Ti : Zsum (map g_Total_icu (groupby_WHO_region_sum dfg)) =
               Zsum (dropna (map icu_7d named))).
  { unfold groupby_WHO_region_sum. rewrite map_map. simpl.
    apply (group_sums_total String.eqb String.eqb_eq WHO_region
             (col Covid_new_icu_admissions_last_7days));
      [apply name_keys_NoDup | exact Hks]. }
  rewrite Hh, Hi, <- Th, <- Ti. unfold kept.
  destruct (Zsum_filter_pos g_Total_hosp (groupby_WHO_region_sum dfg))
    as [Hge Heq].
  split; [exact Hge|]. split.
  - intros Hpos. apply Heq, Forall_forall. intros s Hs.
    apply groupby_WHO_region_sum_In in Hs. destruct Hs as (_ & -> & _).
    now apply (nonneg_group_sum String.eqb WHO_region (g_WHO_region s)
                 Covid_new_hospitalizations_last_7days).
  - intros Hpos. apply Zsum_filter_le, Forall_forall. intros s Hs.
    apply groupby_WHO_region_sum_In in Hs. destruct Hs as (_ & _ & ->).
    now apply (nonneg_group_sum String.eqb WHO_region (g_WHO_region s)
                 Covid_new_icu_admissions_last_7days).
Qed.

(** X15. The order of the rows of the table does not matter: two tables
    with the same rows in a different order give the same cards, the same
    daily series, the same regional summary and, in every scope, the same
    ranking and top countries. *)
Theorem row_order_irrelevant (df df' : DataFrame)
  (start_date end_date : option Z) (window : Window)
  (target_region : option string) :
  Permutation df df' ->
  let dfg := df_global df start_date end_date in
  let dfg' := df_global df' start_date end_date in
  key_insights dfg window = key_insights dfg' window /\
  df_ts sort_values dfg window = df_ts sort_values dfg' window /\
  df_reg sort_values dfg = df_reg sort_values dfg' /\
  df_rank sort_values (df_scope dfg target_region) =
    df_rank sort_values (df_scope dfg' target_region) /\
  top_countries sort_values (df_scope dfg target_region) =
    top_countries sort_values (df_scope dfg' target_region).
Proof.
  intros H dfg dfg'.
  assert (Hg : Permutation dfg dfg') by now apply Permutation_filter.
  assert (Hr : df_rank sort_values (df_scope dfg target_region) =
               df_rank sort_values (df_scope dfg' target_region)).
  { unfold df_rank. f_equal. apply groupby_Country_sum_Permutation.
    now apply df_scope_Permutation. }
  repeat split.
  - unfold key_insights, df_ts_cards, total_hosp_hist, total_icu_hist.
    rewrite (groupby_Date_reported_sum_Permutation dfg dfg' _ _ Hg).
    f_equal; apply series_sum_Permutation; now apply Permutation_map.
  - unfold df_ts.
    now rewrite (groupby_Date_reported_sum_Permutation dfg dfg' _ _ Hg).
  - unfold df_reg.
    now rewrite (groupby_WHO_region_sum_Permutation dfg dfg' Hg).
  - exact Hr.
  - unfold top_countries. now rewrite Hr.
Qed.

End MoreFacts.

(** ** The further properties on the sample tables *)

Lemma sample_df_nonneg (c : metric_col) : nonneg c sample_df.
Proof.
  intros r v Hr Hv. unfold sample_df, sample_rows, row_F, row_G, obs in Hr.
  simpl in Hr.
  repeat (destruct Hr as [<-|Hr];
          [destruct c; simpl in Hv; try discriminate; injection Hv as <-; lia|]).
  destruct Hr.
Qed.

Lemma reversed_range_stops_witness :
  18628 < 18635 /\
  df_global sample_df (Some 18635) (Some 18628) = [] /\
  app stable_sort_values sample_df Monthly (Some (18635, 18628))
      Top_5_countries_EUR ICU_admissions = Stopped.
Proof.
  assert (H : 18628 < 18635) by lia.
  split; [exact H|].
  exact (reversed_range_stops stable_sort_values sample_df 18635 18628 Monthly
           Top_5_countries_EUR ICU_admissions H).
Defined.

Lemma wider_range_keeps_more_witness :
  18628 <= 18635 /\ 18635 <= 18642 /\
  (forall r, In r (df_global sample_df (Some 18635) (Some 18635)) ->
             In r (df_global sample_df (Some 18628) (Some 18642))) /\
  (nonneg Covid_new_hospitalizations_last_7days sample_df ->
   total_hosp_hist (df_global sample_df (Some 18635) (Some 18635)) <=
   total_hosp_hist (df_global sample_df (Some 18628) (Some 18642))) /\
  (nonneg Covid_new_icu_admissions_last_7days sample_df ->
   total_icu_hist (df_global sample_df (Some 18635) (Some 18635)) <=
   total_icu_hist (df_global sample_df (Some 18628) (Some 18642))).
Proof.
  assert (H1 : 18628 <= 18635) by lia.
  assert (H2 : 18635 <= 18642) by lia.
  split; [exact H1|]. split; [exact H2|].
  exact (wider_range_keeps_more sample_df 18635 18635 18628 18642 H1 H2).
Defined.

Lemma app_never_raises_witness :
  sort_values_spec stable_sort_values /\
  app stable_sort_values sample_df Weekly None Top_5_countries_globally
      Hospitalizations <> Raised.
Proof.
  split; [exact stable_sort_values_spec|].
  exact (app_never_raises stable_sort_values stable_sort_values_spec sample_df
           Weekly None Top_5_countries_globally Hospitalizations).
Defined.

Lemma cards_peaks_match_overview_witness :
  sort_values_spec stable_sort_values /\
  sample_dfg <> [] /\
  exists ov vh vi,
    global_evolution stable_sort_values sample_dfg Monthly = Some ov /\
    peak_hosp (key_insights sample_dfg Monthly) = Some vh /\
    hosp_peak_value ov = Some vh /\
    peak_icu (key_insights sample_dfg Monthly) = Some vi /\
    icu_peak_value ov = Some vi.
Proof.
  split; [exact stable_sort_values_spec|].
  assert (H : sample_dfg <> []) by (vm_compute; discriminate).
  split; [exact H|].
  exact (cards_peaks_match_overview stable_sort_values stable_sort_values_spec
           sample_df (Some 18628) (Some 18642) Monthly H).
Defined.

Lemma daily_series_adds_up_witness :
  sort_values_spec stable_sort_values /\
  Zsum (map ts_hosp (values (df_ts stable_sort_values sample_dfg Monthly))) =
    Zsum (dropna (map (col (hosp_col Monthly)) sample_dfg)) /\
  Zsum (map ts_icu (values (df_ts stable_sort_values sample_dfg Monthly))) =
    Zsum (dropna (map (col (icu_col Monthly)) sample_dfg)) /\
  Zsum (map ts_hosp (values (df_ts stable_sort_values sample_dfg Weekly))) =
    card_total_hosp (key_insights sample_dfg Weekly) /\
  Zsum (map ts_icu (values (df_ts stable_sort_values sample_dfg Weekly))) =
    card_total_icu (key_insights sample_dfg Weekly).
Proof.
  split; [exact stable_sort_values_spec|].
  exact (daily_series_adds_up stable_sort_values stable_sort_values_spec
           sample_df (Some 18628) (Some 18642) Monthly).
Defined.

Lemma weekly_peak_within_total_witness :
  nonneg Covid_new_hospitalizations_last_7days sample_df /\
  nonneg Covid_new_icu_admissions_last_7days sample_df /\
  peak_card_number (peak_hosp (key_insights sample_dfg Weekly)) <=
    card_total_hosp (key_insights sample_dfg Weekly) /\
  peak_card_number (peak_icu (key_insights sample_dfg Weekly)) <=
    card_total_icu (key_insights sample_dfg Weekly) /\
  (exists df',
     nonneg Covid_new_hospitalizations_last_28days df' /\
     card_total_hosp (key_insights df' Monthly) <
     peak_card_number (peak_hosp (key_insights df' Monthly))).
Proof.
  split; [apply sample_df_nonneg|]. split; [apply sample_df_nonneg|].
  exact (weekly_peak_within_total sample_df (Some 18628) (Some 18642)
           (sample_df_nonneg _) (sample_df_nonneg _)).
Defined.

Lemma top_countries_are_the_top_witness :
  sort_values_spec stable_sort_values /\
  NoDup (top_countries stable_sort_values sample_dfg) /\
  (forall c, In c (top_countries stable_sort_values sample_dfg) ->
             exists r, In r sample_dfg /\ Country r = Some c) /\
  (forall a b,
     In a (df_rank stable_sort_values sample_dfg) ->
     In b (df_rank stable_sort_values sample_dfg) ->
     In (rk_Country a) (top_countries stable_sort_values sample_dfg) ->
     ~ In (rk_Country b) (top_countries stable_sort_values sample_dfg) ->
     Total_hosp a >= Total_hosp b).
Proof.
  split; [exact stable_sort_values_spec|].
  exact (top_countries_are_the_top stable_sort_values stable_sort_values_spec
           sample_dfg).
Defined.

Lemma ranking_totals_add_up_witness :
  sort_values_spec stable_sort_values /\
  Zsum (map Total_hosp (df_rank stable_sort_values sample_dfg)) =
    Zsum (dropna (map hosp_7d
                      (filter (fun r => notna (Country r)) sample_dfg))) /\
  ((forall r, In r sample_dfg -> Country r <> None) ->
   Zsum (map Total_hosp (df_rank stable_sort_values sample_dfg)) =
   total_hosp_hist sample_dfg).
Proof.
  split; [exact stable_sort_values_spec|].
  exact (ranking_totals_add_up stable_sort_values stable_sort_values_spec
           sample_dfg).
Defined.

Lemma country_tab_warnings_witness :
  sort_values_spec stable_sort_values /\
  (country_tab stable_sort_values sample_dfg Weekly Top_5_countries_AFR
               Hospitalizations = Warning_no_data_for_region <->
   df_scope sample_dfg (region_map Top_5_countries_AFR) = []) /\
  (country_tab stable_sort_values sample_dfg Weekly Top_5_countries_AFR
               Hospitalizations = Warning_no_countries_found <->
   df_scope sample_dfg (region_map Top_5_countries_AFR) <> [] /\
   forall r, In r (df_scope sample_dfg (region_map Top_5_countries_AFR)) ->
             Country r = None).
Proof.
  split; [exact stable_sort_values_spec|].
  exact (country_tab_warnings stable_sort_values stable_sort_values_spec
           sample_dfg Weekly Top_5_countries_AFR Hospitalizations).
Defined.

Lemma country_chart_rows_witness :
  sort_values_spec stable_sort_values /\
  (let dfs := df_scope sample_dfg (Some "WPR"%string) in
   let top := top_countries stable_sort_values dfs in
   let rows := df_country_ts stable_sort_values dfs top in
   (forall r, In r rows <->
              In r dfs /\ exists c, Country r = Some c /\ In c top) /\
   (forall c, In c top -> exists r, In r rows /\ Country r = Some c) /\
   (forall reg, Some "WPR"%string = Some reg ->
                forall r, In r rows -> WHO_region r = Some reg) /\
   StronglySorted (fun a b => key_le true (Date_reported a) (Date_reported b))
                  rows).
Proof.
  split; [exact stable_sort_values_spec|].
  exact (country_chart_rows stable_sort_values stable_sort_values_spec
           sample_dfg (Some "WPR"%string)).
Defined.


Lemma regional_summary_size_witness :
  sort_values_spec stable_sort_values /\
  NoDup (map reg_WHO_region (df_reg stable_sort_values sample_rows)) /\
  ((forall r g, In r sample_rows -> WHO_region r = Some g ->
                In g region_codes) ->
   (List.length (df_reg stable_sort_values sample_rows) <= 6)%nat).
Proof.
  split; [exact stable_sort_values_spec|].
  exact (regional_summary_size stable_sort_values stable_sort_values_spec
           sample_rows).
Defined.

Lemma regional_totals_add_up_witness :
  sort_values_spec stable_sort_values /\
  (let named := filter (fun r => notna (WHO_region r)) sample_dfg in
   Zsum (dropna (map hosp_7d named)) <=
     Zsum (map reg_Total_hosp (df_reg stable_sort_values sample_dfg)) /\
   (nonneg Covid_new_hospitalizations_last_7days sample_dfg ->
    Zsum (map reg_Total_hosp (df_reg stable_sort_values sample_dfg)) =
    Zsum (dropna (map hosp_7d named))) /\
   (nonneg Covid_new_icu_admissions_last_7days sample_dfg ->
    Zsum (map reg_Total_icu (df_reg stable_sort_values sample_dfg)) <=
    Zsum (dropna (map icu_7d named)))).
Proof.
  split; [exact stable_sort_values_spec|].
  exact (regional_totals_add_up stable_sort_values stable_sort_values_spec
           sample_dfg).
Defined.

Lemma row_order_irrelevant_witness :
  Permutation sample_df (rev sample_df) /\
  (let dfg := df_global sample_df (Some 18628) (Some 18642) in
   let dfg' := df_global (rev sample_df) (Some 18628) (Some 18642) in
   key_insights dfg Weekly = key_insights dfg' Weekly /\
   df_ts stable_sort_values dfg Weekly = df_ts stable_sort_values dfg' Weekly /\
   df_reg stable_sort_values dfg = df_reg stable_sort_values dfg' /\
   df_rank stable_sort_values (df_scope dfg (Some "EUR"%string)) =
     df_rank stable_sort_values (df_scope dfg' (Some "EUR"%string)) /\
   top_countries stable_sort_values (df_scope dfg (Some "EUR"%string)) =
     top_countries stable_sort_values (df_scope dfg' (Some "EUR"%string))).
Proof.
  split; [apply Permutation_rev|].
  exact (row_order_irrelevant stable_sort_values sample_df (rev sample_df)
           (Some 18628) (Some 18642) Weekly (Some "EUR"%string)
           (Permutation_rev sample_df)).
Defined.
